(** * Substrait relation translation (arrow/engine/substrait/relation_internal.cc)

    A shallow embedding of [FromProto(const substrait::Rel&, ...)], the
    function that turns a Substrait relation tree into a
    [compute::Declaration] tree for the streaming execution engine, in two
    of its revisions (module [Decl]: the one returning a [Declaration];
    module [Info]: the later one returning a [DeclarationInfo]), together
    with the [PassthruNode] example of
    docs/source/cpp/streaming_execution.rst.

    Conventions.
    - [arrow::Result<T>] is [Result T]: a value or a [Status].  A third
      outcome, [Undefined], marks executions that return neither: an
      unchecked index past the end of a vector or repeated field, signed
      [int] overflow, an exception thrown by the standard library.
    - protobuf messages are records of the fields the code reads; an optional
      sub-message is an [option], so [has_x()] is "is [Some]"; a [oneof] is
      an inductive type with one constructor per case.
    - everything [FromProto] calls that lives outside relation_internal.cc
      (expression and schema translation, the local filesystem, the dataset
      factory, the extension set) is a field of [Collaborators]. *)

From Stdlib Require Import String List ZArith Lia Bool.
Import ListNotations.
Local Open Scope string_scope.
Local Open Scope list_scope.
Local Open Scope Z_scope.

Set Implicit Arguments.
Set Warnings "-register-all,-notation-for-abbreviation".

(** ** Status and Result *)

Inductive StatusCode : Type :=
| Invalid
| NotImplemented
| IOError
| KeyError
| TypeError
| IndexError
| UnknownError.

Record Status : Type := mkStatus { code : StatusCode; message : string }.

Inductive Result (A : Type) : Type :=
| Ok (value : A)
| Raise (st : Status)
| Undefined.

Arguments Ok {A} value.
Arguments Raise {A} st.
Arguments Undefined {A}.

Definition Status_Invalid {A} (msg : string) : Result A :=
  Raise (mkStatus Invalid msg).
Definition Status_NotImplemented {A} (msg : string) : Result A :=
  Raise (mkStatus NotImplemented msg).

(** ARROW_ASSIGN_OR_RAISE / RETURN_NOT_OK *)
Definition bind {A B} (r : Result A) (k : A -> Result B) : Result B :=
  match r with
  | Ok a => k a
  | Raise st => Raise st
  | Undefined => Undefined
  end.

Declare Scope result_scope.
Delimit Scope result_scope with result.
Notation "x <- r ;; k" := (bind r (fun x => k))
  (at level 61, r at next level, right associativity) : result_scope.
Notation "r ;;; k" := (bind r (fun _ => k))
  (at level 61, right associativity) : result_scope.
Local Open Scope result_scope.

(** A [Status]-returning check: [Status::OK()] is [Ok tt]. *)
Definition Status_OK : Result unit := Ok tt.

Definition is_error {A} (r : Result A) : Prop := exists st, r = Raise st.
Definition raises {A} (c : StatusCode) (r : Result A) : Prop :=
  exists msg, r = Raise (mkStatus c msg).

(** ** C++ [int] *)

Definition INT_MAX : Z := 2147483647.
Definition INT_MIN : Z := -2147483648.

(** [static_cast<int>(n)] of an unsigned size: reduction modulo 2^32 into
    the signed range. *)
Definition static_cast_int (n : Z) : Z :=
  let m := n mod 4294967296 in
  if m <=? INT_MAX then m else m - 4294967296.

(** [a + b] on [int]: overflow has no defined behaviour. *)
Definition int_add (a b : Z) : Result Z :=
  let s := a + b in
  if (INT_MIN <=? s) && (s <=? INT_MAX) then Ok s else Undefined.

(** [v.size()] *)
Definition size {A} (v : list A) : Z := Z.of_nat (length v).

(** [v[i]] on a [std::vector]: unchecked. *)
Definition index {A} (v : list A) (i : nat) : Result A :=
  match nth_error v i with
  | Some a => Ok a
  | None => Undefined
  end.

(** ** std::string helpers *)

Definition starts_with (s p : string) : bool := String.prefix p s.

Fixpoint string_rev (s : string) : string :=
  match s with
  | EmptyString => EmptyString
  | String c r => (string_rev r ++ String c EmptyString)%string
  end.

Definition ends_with (s p : string) : bool :=
  String.prefix (string_rev p) (string_rev s).

(** [s.substr(pos)]; callers guarantee [pos <= s.size()]. *)
Definition substr (s : string) (pos : nat) : string :=
  String.substring pos (String.length s - pos) s.

(** ** compute::Expression, FieldRef *)

Inductive FieldRef : Type :=
| FieldPath (indices : list Z)
| FieldName (name : string)
| FieldNested (refs : list FieldRef).

Inductive Expression (Datum : Type) : Type :=
| literal (d : Datum)
| field_ref (ref : FieldRef)
| call (function_name : string) (arguments : list (Expression Datum)).

Arguments literal {Datum} d.
Arguments field_ref {Datum} ref.
Arguments call {Datum} function_name arguments.

(** [Expression::call()]: the call, or [nullptr]. *)
Definition Expression_call {D} (e : Expression D)
  : option (string * list (Expression D)) :=
  match e with
  | call f args => Some (f, args)
  | _ => None
  end.

(** [Expression::field_ref()]: the reference, or [nullptr]. *)
Definition Expression_field_ref {D} (e : Expression D) : option FieldRef :=
  match e with
  | field_ref r => Some r
  | _ => None
  end.

(** ** Engine-side option bundles *)

Inductive JoinType : Type :=
| LEFT_SEMI | RIGHT_SEMI | LEFT_ANTI | RIGHT_ANTI
| INNER | LEFT_OUTER | RIGHT_OUTER | FULL_OUTER.

Inductive JoinKeyCmp : Type := EQ | IS.

(** The fields of [HashJoinNodeOptions] that [FromProto] sets. *)
Record HashJoinNodeOptions : Type := mkHashJoinNodeOptions {
  join_type : JoinType;
  left_keys : list FieldRef;
  right_keys : list FieldRef;
  key_cmp : list JoinKeyCmp
}.

Record Aggregate : Type := mkAggregate {
  agg_function : string;
  agg_target : FieldRef;
  agg_name : string
}.

Inductive FileType : Type := NotFound | Unknown | File | Directory.

Record FileSelector : Type := mkFileSelector {
  base_dir : string;
  recursive : bool
}.

Inductive FileFormat : Type := ParquetFileFormat | IpcFileFormat.

(** ** Collaborators *)

Record Collaborators : Type := {
  (* substrait messages translated elsewhere *)
  substrait_Expression : Type;
  substrait_NamedStruct : Type;
  (* arrow values *)
  Datum : Type;
  Field : Type;
  FileInfo : Type;
  Dataset : Type;
  DatasetFactory : Type;
  (* expression_internal.cc, type_internal.cc *)
  FromProto_Expression : substrait_Expression -> Result (Expression Datum);
  FromProto_NamedStruct : substrait_NamedStruct -> Result (list Field);
  Expression_ToString : Expression Datum -> string;
  (* ExtensionSet::DecodeFunction(anchor), reduced to the function name *)
  DecodeFunction : Z -> Result string;
  (* fs::FileInfo *)
  FileInfo_make : string -> FileType -> FileInfo;
  FileInfo_type : FileInfo -> FileType;
  (* what is left in a FileInfo after it has been moved from *)
  FileInfo_moved_from : FileInfo -> FileInfo;
  (* fs::LocalFileSystem, fs::internal::GlobFiles *)
  GetFileInfo : string -> Result FileInfo;
  GetFileInfo_selector : FileSelector -> Result (list FileInfo);
  GlobFiles : string -> Result (list FileInfo);
  (* dataset::FileSystemDatasetFactory *)
  FileSystemDatasetFactory_Make :
    list FileInfo -> option FileFormat -> Result DatasetFactory;
  DatasetFactory_Finish : DatasetFactory -> list Field -> Result Dataset
}.

(** ** Substrait messages and engine declarations *)

Record RelCommon : Type := mkRelCommon {
  has_emit : bool;
  has_hint : bool;
  common_has_advanced_extension : bool
}.

(** [substrait::JoinRel::JoinType]; [JOIN_TYPE_other] is any value the
    switch in [FromProto] has no case for. *)
Inductive JoinRel_JoinType : Type :=
| JOIN_TYPE_UNSPECIFIED
| JOIN_TYPE_INNER
| JOIN_TYPE_OUTER
| JOIN_TYPE_LEFT
| JOIN_TYPE_RIGHT
| JOIN_TYPE_SEMI
| JOIN_TYPE_ANTI
| JOIN_TYPE_other (value : Z).

(** [ReadRel::LocalFiles::FileOrFiles]: the [path_type] oneof, the
    [file_format] oneof (read by the newer revision) and the [format] enum
    (read by the older one). *)
Inductive PathTypeCase : Type :=
| kUriPath (uri_path : string)
| kUriPathGlob (uri_path_glob : string)
| kUriFile (uri_file : string)
| kUriFolder (uri_folder : string)
| PATH_TYPE_NOT_SET.

Inductive FileFormatCase : Type :=
| kParquet | kArrow | kOrc | kExtension | FILE_FORMAT_NOT_SET.

Inductive FileFormatEnum : Type :=
| FILE_FORMAT_UNSPECIFIED | FILE_FORMAT_PARQUET.

Record FileOrFiles : Type := mkFileOrFiles {
  path_type : PathTypeCase;
  file_format : FileFormatCase;
  format : FileFormatEnum;
  partition_index : Z;
  start : Z;
  length_ : Z
}.

Record LocalFiles : Type := mkLocalFiles {
  items : list FileOrFiles;
  local_files_has_advanced_extension : bool
}.

Section Translation.

Context (E : Collaborators).

Notation SExpression := (substrait_Expression E).
Notation Expr := (Expression (Datum E)).

Record ReadRel : Type := mkReadRel {
  read_common : option RelCommon;
  base_schema : substrait_NamedStruct E;
  read_filter : option SExpression;
  has_projection : bool;
  local_files : option LocalFiles;
  read_has_advanced_extension : bool
}.

Record AggregateFunction : Type := mkAggregateFunction {
  function_reference : Z;
  arguments : list SExpression   (* [arguments(i).value()] *)
}.

Record Measure : Type := mkMeasure {
  measure : option AggregateFunction;
  measure_filter : option SExpression
}.

(** [substrait::Rel]: the [rel_type] oneof.  [RelOther] stands for every
    case [FromProto] does not handle, REL_TYPE_NOT_SET included. *)
Inductive Rel : Type :=
| RelRead (read : ReadRel)
| RelFilter (common : option RelCommon) (input : option Rel)
            (condition : option SExpression) (has_advanced_extension : bool)
| RelProject (common : option RelCommon) (input : option Rel)
             (expressions : list SExpression) (has_advanced_extension : bool)
| RelJoin (common : option RelCommon) (left right : option Rel)
          (expression : option SExpression) (type : JoinRel_JoinType)
          (has_advanced_extension : bool)
| RelAggregate (common : option RelCommon) (input : option Rel)
               (groupings : list (list SExpression)) (measures : list Measure)
               (has_advanced_extension : bool)
| RelOther.

Record ScanOptions : Type := mkScanOptions {
  (* [None]: the default filter, left untouched *)
  scan_filter : option Expr;
  use_threads : bool
}.

Inductive ExecNodeOptions : Type :=
| ScanNodeOptions (dataset : Dataset E) (scan_options : ScanOptions)
| FilterNodeOptions (filter_expression : Expr)
| ProjectNodeOptions (expressions : list Expr)
| HashJoinOptions (o : HashJoinNodeOptions)
| AggregateNodeOptions (aggregates : list Aggregate) (keys : list FieldRef).

(** [compute::Declaration]: (factory_name, inputs, options).  Every input
    built here is itself a declaration. *)
Inductive Declaration : Type :=
| mkDeclaration (factory_name : string) (inputs : list Declaration)
                (options : ExecNodeOptions).

Definition factory_name (d : Declaration) : string :=
  let 'mkDeclaration n _ _ := d in n.
Definition inputs (d : Declaration) : list Declaration :=
  let 'mkDeclaration _ i _ := d in i.
Definition options (d : Declaration) : ExecNodeOptions :=
  let 'mkDeclaration _ _ o := d in o.

(** [Declaration{name, options}]: no inputs yet. *)
Definition Declaration_make (name : string) (o : ExecNodeOptions) : Declaration :=
  mkDeclaration name [] o.

(** [d.inputs.emplace_back(i)] *)
Definition emplace_input (d i : Declaration) : Declaration :=
  let 'mkDeclaration n ins o := d in mkDeclaration n (ins ++ [i]) o.

Record DeclarationInfo : Type := mkDeclarationInfo {
  declaration : Declaration;
  num_columns : Z
}.

(** Modelled from the spec: [Declaration::Sequence] (exec_plan.cc is not
    among the sources).  The plan description is "an ordered tree of
    (operator_name, options, inputs) triples [...] producing the
    corresponding chain of nodes", and the streaming-execution guide uses
    [Sequence({source, filter, project, write})] for the pipeline in which
    each node is the input of the next: every declaration becomes an input
    of its successor and the last one is returned.  An empty sequence is
    ruled out by an assertion. *)
Fixpoint Sequence_onto (upstream : Declaration) (rest : list Declaration)
  : Declaration :=
  match rest with
  | [] => upstream
  | d :: rest' => Sequence_onto (emplace_input d upstream) rest'
  end.

Definition Sequence (decls : list Declaration) : Result Declaration :=
  match decls with
  | [] => Undefined
  | d :: rest => Ok (Sequence_onto d rest)
  end.

(** *** Parts of [FromProto] common to both revisions *)

(** [template <typename RelMessage> Status CheckRelCommon(const RelMessage&)] *)
Definition CheckRelCommon (common : option RelCommon)
           (has_advanced_extension : bool) : Result unit :=
  match common with
  | Some c =>
      if has_emit c then Status_NotImplemented "substrait::RelCommon::Emit"
      else if has_hint c then Status_NotImplemented "substrait::RelCommon::Hint"
      else if common_has_advanced_extension c
      then Status_NotImplemented "substrait::RelCommon::advanced_extension"
      else Status_OK
  | None => Status_OK
  end ;;;
  if has_advanced_extension
  then Status_NotImplemented "substrait AdvancedExtensions"
  else Status_OK.

(** [for (x : xs) { ...ASSIGN_OR_RAISE(y, f(x)); out.push_back(y); }] *)
Fixpoint for_each {A B} (f : A -> Result B) (xs : list A) : Result (list B) :=
  match xs with
  | [] => Ok []
  | x :: rest => y <- f x ;; ys <- for_each f rest ;; Ok (y :: ys)
  end.

(** [for (x : xs) { ...state updated or early return... }] *)
Fixpoint for_state {A S} (body : S -> A -> Result S) (xs : list A) (s : S)
  : Result S :=
  match xs with
  | [] => Ok s
  | x :: rest => s' <- body s x ;; for_state body rest s'
  end.

(** The [path] local of the item loop. *)
Definition item_path (item : FileOrFiles) : string :=
  match path_type item with
  | kUriPath p => p
  | kUriFile p => p
  | kUriFolder p => p
  | kUriPathGlob p => p
  | PATH_TYPE_NOT_SET => ""
  end.

(** The three [non-default ...] checks and the [file:///] check. *)
Definition check_item (item : FileOrFiles) (path : string) : Result unit :=
  (if negb (starts_with path "file:///")
   then Status_NotImplemented
          ("substrait::ReadRel::LocalFiles item (" ++ path ++
           ") with other than local filesystem (file:///)")%string
   else Status_OK) ;;;
  (if negb (partition_index item =? 0)
   then Status_NotImplemented
          "non-default substrait::ReadRel::LocalFiles::FileOrFiles::partition_index"
   else Status_OK) ;;;
  (if negb (start item =? 0)
   then Status_NotImplemented
          "non-default substrait::ReadRel::LocalFiles::FileOrFiles::start offset"
   else Status_OK) ;;;
  (if negb (length_ item =? 0)
   then Status_NotImplemented
          "non-default substrait::ReadRel::LocalFiles::FileOrFiles::length"
   else Status_OK).

(** The tail of the item loop, from [path = path.substr(7)] on: what one
    item does to the [files] vector. *)
Definition collect_item (item : FileOrFiles) (full_path : string)
           (files : list (FileInfo E)) : Result (list (FileInfo E)) :=
  let path := substr full_path 7 in
  files <-
    match path_type item with
    | kUriPath _ =>
        file <- GetFileInfo E path ;;
        match FileInfo_type E file with
        | File => Ok (files ++ [file])
        | Directory =>
            let selector := mkFileSelector path true in
            discovered_files <- GetFileInfo_selector E selector ;;
            (* std::move(files.begin(), files.end(),
                         std::back_inserter(discovered_files));
               [discovered_files] then goes out of scope *)
            let discovered_files :=
              discovered_files ++ files in
            Ok (map (FileInfo_moved_from E) files)
        | _ => Ok files
        end
    | _ => Ok files
    end ;;
  match path_type item with
  | kUriFile _ => Ok (files ++ [FileInfo_make E path File])
  | kUriFolder _ =>
      let selector := mkFileSelector path true in
      discovered_files <- GetFileInfo_selector E selector ;;
      Ok (files ++ discovered_files)
  | _ =>
      discovered_files <- GlobFiles E path ;;
      Ok (files ++ discovered_files)
  end.

(** The switch on [join.type()]. *)
Definition join_type_switch (t : JoinRel_JoinType) : Result JoinType :=
  match t with
  | JOIN_TYPE_UNSPECIFIED =>
      Status_NotImplemented "Unspecified join type is not supported"
  | JOIN_TYPE_INNER => Ok INNER
  | JOIN_TYPE_OUTER => Ok FULL_OUTER
  | JOIN_TYPE_LEFT => Ok LEFT_OUTER
  | JOIN_TYPE_RIGHT => Ok RIGHT_OUTER
  | JOIN_TYPE_SEMI => Ok LEFT_SEMI
  | JOIN_TYPE_ANTI => Ok LEFT_ANTI
  | JOIN_TYPE_other _ => Status_Invalid "Unsupported join type"
  end.

(** From [expression.call()] to the filled [join_options]. *)
Definition join_options_of (jt : JoinType) (expression : Expr)
  : Result HashJoinNodeOptions :=
  match Expression_call expression with
  | None =>
      Status_Invalid
        ("A join rel's expression must be a simple equality between keys but got "
         ++ Expression_ToString E expression)%string
  | Some (function_name, arguments) =>
      join_key_cmp <-
        (if (function_name =? "equal")%string then Ok EQ
         else if (function_name =? "is_not_distinct_from")%string then Ok IS
         else Status_Invalid
                ("Only `equal` or `is_not_distinct_from` are supported for join key comparison but got "
                 ++ function_name)%string) ;;
      arg0 <- index arguments 0 ;;
      arg1 <- index arguments 1 ;;
      match Expression_field_ref arg0, Expression_field_ref arg1 with
      | Some lk, Some rk =>
          (* HashJoinNodeOptions join_options{{*left_keys}, {*right_keys}};
             join_options.join_type = join_type;
             join_options.key_cmp = {join_key_cmp}; *)
          Ok (mkHashJoinNodeOptions jt [lk] [rk] [join_key_cmp])
      | _, _ => Status_Invalid "Left keys for join cannot be null"
      end
  end.

End Translation.

Arguments RelOther {E}.
Arguments mkScanOptions {E} scan_filter use_threads.
Arguments ScanNodeOptions {E} dataset scan_options.
Arguments FilterNodeOptions {E} filter_expression.
Arguments ProjectNodeOptions {E} expressions.
Arguments HashJoinOptions {E} o.
Arguments AggregateNodeOptions {E} aggregates keys.

(** The item loop of the [kRead] case; the two revisions differ only in how
    they pick the file format of an item. *)
Section ReadCase.

Context (E : Collaborators).
Variable detect_format : FileOrFiles -> string -> Result FileFormat.

Definition read_item (st : option FileFormat * list (FileInfo E))
           (item : FileOrFiles)
  : Result (option FileFormat * list (FileInfo E)) :=
  let path := item_path item in
  format <- detect_format item path ;;
  check_item item path ;;;
  files <- collect_item E item path (snd st) ;;
  Ok (Some format, files).

(** [case kRead], up to the "scan" declaration; the translated base schema
    is returned alongside. *)
Definition read_case (read : ReadRel E)
  : Result (Declaration E * list (Field E)) :=
  CheckRelCommon (read_common read) (read_has_advanced_extension read) ;;;
  schema <- FromProto_NamedStruct E (base_schema read) ;;
  filter <-
    match read_filter read with
    | Some f => e <- FromProto_Expression E f ;; Ok (Some e)
    | None => Ok None
    end ;;
  let scan_options := mkScanOptions filter true in
  if has_projection read
  then Status_NotImplemented "substrait::ReadRel::projection"
  else
    match local_files read with
    | None =>
        Status_NotImplemented
          "substrait::ReadRel with read_type other than LocalFiles"
    | Some lf =>
        if local_files_has_advanced_extension lf
        then Status_NotImplemented
               "substrait::ReadRel::LocalFiles::advanced_extension"
        else
          st <- for_state read_item (items lf) (None, []) ;;
          let '(format, files) := st in
          ds_factory <- FileSystemDatasetFactory_Make E files format ;;
          ds <- DatasetFactory_Finish E ds_factory schema ;;
          Ok (Declaration_make "scan" (ScanNodeOptions ds scan_options), schema)
    end.

End ReadCase.

(** ** src/cpp/src/arrow/engine/substrait/relation_internal.cc

    [Result<compute::Declaration> FromProto(const substrait::Rel&,
    const ExtensionSet&)] *)
Module Decl.
Section FromProto.

Context (E : Collaborators).
Variable DebugString : Rel E -> string.

Definition detect_format (item : FileOrFiles) (path : string)
  : Result FileFormat :=
  match format item with
  | FILE_FORMAT_PARQUET => Ok ParquetFileFormat
  | _ =>
      if ends_with path ".arrow" then Ok IpcFileFormat
      else if ends_with path ".feather" then Ok IpcFileFormat
      else Status_NotImplemented
             "substrait::ReadRel::LocalFiles::FileOrFiles::format other than FILE_FORMAT_PARQUET"
  end.

Fixpoint FromProto (rel : Rel E) : Result (Declaration E) :=
  match rel with
  | RelRead read =>
      r <- read_case detect_format read ;; Ok (fst r)

  | RelFilter common input condition adv =>
      CheckRelCommon common adv ;;;
      match input with
      | None => Status_Invalid "substrait::FilterRel with no input relation"
      | Some i =>
          input <- FromProto i ;;
          match condition with
          | None =>
              Status_Invalid "substrait::FilterRel with no condition expression"
          | Some c =>
              condition <- FromProto_Expression E c ;;
              Sequence [input;
                        Declaration_make "filter" (FilterNodeOptions condition)]
          end
      end

  | RelProject common input exprs adv =>
      CheckRelCommon common adv ;;;
      match input with
      | None => Status_Invalid "substrait::ProjectRel with no input relation"
      | Some i =>
          input <- FromProto i ;;
          expressions <- for_each (FromProto_Expression E) exprs ;;
          Sequence [input;
                    Declaration_make "project" (ProjectNodeOptions expressions)]
      end

  | RelJoin common join_left join_right expression type adv =>
      CheckRelCommon common adv ;;;
      match join_left with
      | None => Status_Invalid "substrait::JoinRel with no left relation"
      | Some l =>
      match join_right with
      | None => Status_Invalid "substrait::JoinRel with no right relation"
      | Some r =>
          join_type <- join_type_switch type ;;
          left <- FromProto l ;;
          right <- FromProto r ;;
          match expression with
          | None => Status_Invalid "substrait::JoinRel with no expression"
          | Some e =>
              expression <- FromProto_Expression E e ;;
              join_options <- join_options_of E join_type expression ;;
              let join_dec :=
                Declaration_make "hashjoin" (HashJoinOptions join_options) in
              let join_dec := emplace_input join_dec left in
              let join_dec := emplace_input join_dec right in
              Ok join_dec
          end
      end
      end

  | _ =>
      Status_NotImplemented
        ("conversion to arrow::compute::Declaration from Substrait relation "
         ++ DebugString rel)%string
  end.

End FromProto.
End Decl.

(** ** src/unnamed/part_004 (relation_internal.cc, later revision)

    [Result<DeclarationInfo> FromProto(const substrait::Rel&,
    const ExtensionSet&, const ConversionOptions&)] *)
Module Info.
Section FromProto.

Context (E : Collaborators).
Variable DebugString : Rel E -> string.

Definition detect_format (item : FileOrFiles) (path : string)
  : Result FileFormat :=
  match file_format item with
  | kParquet => Ok ParquetFileFormat
  | kArrow => Ok IpcFileFormat
  | _ =>
      Status_NotImplemented
        "unknown substrait::ReadRel::LocalFiles::FileOrFiles::file_format"
  end.

(** [v.reserve(n)] with an [int] argument: a negative [n] converts to a
    size beyond [max_size()] and [reserve] throws. *)
Definition reserve (n : Z) : Result unit :=
  if n <? 0 then Undefined else Ok tt.

(** Body of the grouping-expression loop. *)
Definition grouping_key (e : substrait_Expression E) : Result FieldRef :=
  expr <- FromProto_Expression E e ;;
  match Expression_field_ref expr with
  | Some ref => Ok ref
  | None =>
      Status_Invalid
        "The grouping expression for an aggregate must be a direct reference."
  end.

(** Body of the measure loop. *)
Definition measure_aggregate (agg_measure : Measure E) : Result Aggregate :=
  match measure agg_measure with
  | Some agg_func =>
      match measure_filter agg_measure with
      | Some _ => Status_NotImplemented "Aggregate filters are not supported."
      | None =>
          if negb (size (arguments agg_func) =? 1)
          then Status_NotImplemented
                 "Aggregate function must be a unary function."
          else
            func_name <- DecodeFunction E (function_reference agg_func) ;;
            subs_func_args <- index (arguments agg_func) 0 ;;
            field_expr <- FromProto_Expression E subs_func_args ;;
            match Expression_field_ref field_expr with
            | None =>
                Status_Invalid
                  "The input expression to an aggregate function must be a direct reference."
            | Some target => Ok (mkAggregate func_name target "")
            end
      end
  | None => Status_Invalid "substrait::AggregateFunction not provided"
  end.

(** [for (int i = 0; i < n; i++) expressions.emplace_back(field_ref(FieldRef(i)))] *)
Definition column_refs (n : Z) : list (Expression (Datum E)) :=
  map (fun i => field_ref (FieldPath [Z.of_nat i])) (seq 0 (Z.to_nat n)).

Fixpoint FromProto (rel : Rel E) : Result (DeclarationInfo E) :=
  match rel with
  | RelRead read =>
      r <- read_case detect_format read ;;
      let num_columns := static_cast_int (size (snd r)) in
      Ok (mkDeclarationInfo (fst r) num_columns)

  | RelFilter common input condition adv =>
      CheckRelCommon common adv ;;;
      match input with
      | None => Status_Invalid "substrait::FilterRel with no input relation"
      | Some i =>
          input <- FromProto i ;;
          match condition with
          | None =>
              Status_Invalid "substrait::FilterRel with no condition expression"
          | Some c =>
              condition <- FromProto_Expression E c ;;
              d <- Sequence [declaration input;
                             Declaration_make "filter"
                               (FilterNodeOptions condition)] ;;
              Ok (mkDeclarationInfo d (num_columns input))
          end
      end

  | RelProject common input exprs adv =>
      CheckRelCommon common adv ;;;
      match input with
      | None => Status_Invalid "substrait::ProjectRel with no input relation"
      | Some i =>
          input <- FromProto i ;;
          capacity <- int_add (num_columns input) (size exprs) ;;
          reserve capacity ;;;
          let expressions := column_refs (num_columns input) in
          own <- for_each (FromProto_Expression E) exprs ;;
          let expressions := expressions ++ own in
          let num_columns := static_cast_int (size expressions) in
          d <- Sequence [declaration input;
                         Declaration_make "project"
                           (ProjectNodeOptions expressions)] ;;
          Ok (mkDeclarationInfo d num_columns)
      end

  | RelJoin common join_left join_right expression type adv =>
      CheckRelCommon common adv ;;;
      match join_left with
      | None => Status_Invalid "substrait::JoinRel with no left relation"
      | Some l =>
      match join_right with
      | None => Status_Invalid "substrait::JoinRel with no right relation"
      | Some r =>
          join_type <- join_type_switch type ;;
          left <- FromProto l ;;
          right <- FromProto r ;;
          match expression with
          | None => Status_Invalid "substrait::JoinRel with no expression"
          | Some e =>
              expression <- FromProto_Expression E e ;;
              join_options <- join_options_of E join_type expression ;;
              let join_dec :=
                Declaration_make "hashjoin" (HashJoinOptions join_options) in
              num_columns <- int_add (num_columns left) (num_columns right) ;;
              let join_dec := emplace_input join_dec (declaration left) in
              let join_dec := emplace_input join_dec (declaration right) in
              Ok (mkDeclarationInfo join_dec num_columns)
          end
      end
      end

  | RelAggregate common input groupings measures adv =>
      CheckRelCommon common adv ;;;
      match input with
      | None => Status_Invalid "substrait::AggregateRel with no input relation"
      | Some i =>
          input <- FromProto i ;;
          if size groupings >? 1
          then Status_NotImplemented
                 "Grouping sets not supported.  AggregateRel::groupings may not have more than one item"
          else
            group <- index groupings 0 ;;
            keys <- for_each grouping_key group ;;
            aggregates <- for_each measure_aggregate measures ;;
            d <- Sequence [declaration input;
                           Declaration_make "aggregate"
                             (AggregateNodeOptions aggregates keys)] ;;
            Ok (mkDeclarationInfo d (static_cast_int (size aggregates)))
      end

  | RelOther =>
      Status_NotImplemented
        ("conversion to arrow::compute::Declaration from Substrait relation "
         ++ DebugString rel)%string
  end.

End FromProto.
End Info.

(** ** Vocabulary of the statements *)

(** The join kinds as the specification lists them: inner, full outer, left
    outer, right outer, left semi, left anti; nothing else is supported. *)
Definition specified_join_kind (t : JoinRel_JoinType) : option JoinType :=
  match t with
  | JOIN_TYPE_INNER => Some INNER
  | JOIN_TYPE_OUTER => Some FULL_OUTER
  | JOIN_TYPE_LEFT => Some LEFT_OUTER
  | JOIN_TYPE_RIGHT => Some RIGHT_OUTER
  | JOIN_TYPE_SEMI => Some LEFT_SEMI
  | JOIN_TYPE_ANTI => Some LEFT_ANTI
  | JOIN_TYPE_UNSPECIFIED => None
  | JOIN_TYPE_other _ => None
  end.

(** A "hashjoin" declaration over two inputs, left first. *)
Definition hashjoin_declaration {E} (L R : Declaration E)
           (o : HashJoinNodeOptions) : Declaration E :=
  mkDeclaration "hashjoin" [L; R] (HashJoinOptions o).

(** The join options of a declaration, when it carries some. *)
Definition join_options {E} (d : Declaration E) : option HashJoinNodeOptions :=
  match options d with
  | HashJoinOptions o => Some o
  | _ => None
  end.

(** The expression list of a "project" declaration. *)
Definition project_expressions {E} (d : Declaration E)
  : option (list (Expression (Datum E))) :=
  match options d with
  | ProjectNodeOptions es => Some es
  | _ => None
  end.


(** ** A concrete set of collaborators

    Used to run the translation on explicit plans: Substrait expressions are
    given already translated, a named struct is its list of column names,
    and the local filesystem is a fixed listing. *)
Module Sample.

Record PlainFileInfo : Type := mkFileInfo { path : string; type_ : FileType }.

Record PlainDataset : Type := mkDataset {
  ds_files : list PlainFileInfo;
  ds_format : option FileFormat;
  ds_schema : list string
}.

(** /tmp/dat1.parquet, /tmp/dat2.parquet and a directory /data holding
    a.parquet and sub/b.parquet. *)
Definition listing : list PlainFileInfo :=
  [ mkFileInfo "/tmp" Directory;
    mkFileInfo "/tmp/dat1.parquet" File;
    mkFileInfo "/tmp/dat2.parquet" File;
    mkFileInfo "/data" Directory;
    mkFileInfo "/data/a.parquet" File;
    mkFileInfo "/data/sub" Directory;
    mkFileInfo "/data/sub/b.parquet" File ].

Definition stat (p : string) : PlainFileInfo :=
  match find (fun f => (path f =? p)%string) listing with
  | Some f => f
  | None => mkFileInfo p NotFound
  end.

(** Recursive listing of a directory: the files below it. *)
Definition list_dir (sel : FileSelector) : Result (list PlainFileInfo) :=
  match type_ (stat (base_dir sel)) with
  | Directory =>
      Ok (filter (fun f => String.prefix (base_dir sel ++ "/") (path f)
                           && match type_ f with File => true | _ => false end)
                 listing)
  | _ => Raise (mkStatus IOError "Cannot list directory")
  end.

(** A glob without wildcards matches the entry of that name, if any. *)
Definition glob (p : string) : Result (list PlainFileInfo) :=
  match type_ (stat p) with
  | NotFound => Ok []
  | _ => Ok [stat p]
  end.

Definition env : Collaborators := {|
  substrait_Expression := Expression Z;
  substrait_NamedStruct := list string;
  Datum := Z;
  Field := string;
  FileInfo := PlainFileInfo;
  Dataset := PlainDataset;
  DatasetFactory := list PlainFileInfo * option FileFormat;
  FromProto_Expression := fun e => Ok e;
  FromProto_NamedStruct := fun s => Ok s;
  Expression_ToString := fun _ => "<expression>";
  DecodeFunction := fun anchor => if anchor =? 0 then Ok "sum" else
                      Raise (mkStatus Invalid "no such function");
  FileInfo_make := mkFileInfo;
  FileInfo_type := type_;
  FileInfo_moved_from := fun f => mkFileInfo "" (type_ f);
  GetFileInfo := fun p => Ok (stat p);
  GetFileInfo_selector := list_dir;
  GlobFiles := glob;
  FileSystemDatasetFactory_Make := fun files format => Ok (files, format);
  DatasetFactory_Finish := fun f schema => Ok (mkDataset (fst f) (snd f) schema)
|}.

Definition debug (_ : Rel env) : string := "<rel>".

Definition parquet_item (p : PathTypeCase) : FileOrFiles :=
  mkFileOrFiles p kParquet FILE_FORMAT_PARQUET 0 0 0.

Definition read_of (names : list string) (its : list FileOrFiles) : Rel env :=
  RelRead (mkReadRel env None names None false
             (Some (mkLocalFiles its false)) false).

(** The two scans of the JoinPlanBasic test. *)
Definition scan_abc : Rel env :=
  read_of ["A"; "B"; "C"] [parquet_item (kUriFile "file:///tmp/dat1.parquet")].
Definition scan_xya : Rel env :=
  read_of ["X"; "Y"; "A"] [parquet_item (kUriFile "file:///tmp/dat2.parquet")].

(** What the two scans translate to. *)
Definition scan_declaration (names : list string) (file : string)
  : Declaration env :=
  mkDeclaration "scan" []
    (@ScanNodeOptions env
       (mkDataset [mkFileInfo file File] (Some ParquetFileFormat) names)
       (mkScanOptions None true)).
Definition info_abc : DeclarationInfo env :=
  mkDeclarationInfo (scan_declaration ["A"; "B"; "C"] "/tmp/dat1.parquet") 3.
Definition info_xya : DeclarationInfo env :=
  mkDeclarationInfo (scan_declaration ["X"; "Y"; "A"] "/tmp/dat2.parquet") 3.

Definition key (i : Z) : Expression Z := field_ref (FieldPath [i]).

Definition join_of (t : JoinRel_JoinType) (e : Expression Z) : Rel env :=
  RelJoin None (Some scan_abc) (Some scan_xya) (Some e) t false.

End Sample.

(** ** Error propagation between exec nodes

    [PassthruNode] is the example node of
    docs/source/cpp/streaming_execution.rst.  Nodes live in the plan's
    arena and refer to each other by position. *)
Module ExecPlan.

Local Open Scope nat_scope.
















End ExecPlan.

(** ** Vocabulary of further statements *)

(** The relation message carries something [CheckRelCommon] refuses: an
    emit, a hint or an advanced extension in its RelCommon, or an advanced
    extension of its own. *)
Definition carries_unsupported_extension (common : option RelCommon)
           (has_advanced_extension : bool) : bool :=
  has_advanced_extension ||
  match common with
  | Some c => has_emit c || has_hint c || common_has_advanced_extension c
  | None => false
  end.

(** An item names a local URI and keeps the default partition index, start
    offset and length. *)
Definition plain_local_item (item : FileOrFiles) : Prop :=
  starts_with (item_path item) "file:///" = true /\
  partition_index item = 0 /\ start item = 0 /\ length_ item = 0.

(** The last element of a list, if any. *)
Definition last_item {A} (xs : list A) : option A :=
  match rev xs with
  | [] => None
  | x :: _ => Some x
  end.

(** What the read case puts into the "scan" declaration [d] of a ReadRel:
    the dataset built from the translated base schema, the format of the
    last item (none without items) and the collected files, which are the
    items' own paths when every item is a [uri_file]; the translated filter
    as scan filter; [use_threads] set; no inputs. *)
Definition translated_scan (E : Collaborators)
           (detect_format : FileOrFiles -> string -> Result FileFormat)
           (read : ReadRel E) (d : Declaration E) : Prop :=
  exists schema filter lf format files factory ds,
    FromProto_NamedStruct E (base_schema read) = Ok schema /\
    match read_filter read with
    | None => filter = None
    | Some f => exists e, FromProto_Expression E f = Ok e /\ filter = Some e
    end /\
    local_files read = Some lf /\
    match last_item (items lf) with
    | None => format = None
    | Some item =>
        exists f, detect_format item (item_path item) = Ok f /\ format = Some f
    end /\
    (Forall (fun item => exists p, path_type item = kUriFile p) (items lf) ->
     files = map (fun item => FileInfo_make E (substr (item_path item) 7) File)
                 (items lf)) /\
    FileSystemDatasetFactory_Make E files format = Ok factory /\
    DatasetFactory_Finish E factory schema = Ok ds /\
    d = mkDeclaration "scan" [] (ScanNodeOptions ds (mkScanOptions filter true)).

(** An aggregate over the first sample scan: sum of column 2 grouped by
    column 0. *)
Module SampleAggregate.

Definition sum_of (column : Z) : Measure Sample.env :=
  mkMeasure (Some (mkAggregateFunction Sample.env 0 [Sample.key column])) None.

Definition grouped (groupings : list (list (Expression Z)))
           (measures : list (Measure Sample.env)) : Rel Sample.env :=
  RelAggregate None (Some Sample.scan_abc) groupings measures false.

Definition translated : DeclarationInfo Sample.env :=
  mkDeclarationInfo
    (mkDeclaration "aggregate" [declaration Sample.info_abc]
       (AggregateNodeOptions [mkAggregate "sum" (FieldPath [2]) ""]
                             [FieldPath [0]]))
    1.

End SampleAggregate.

(** ** Serialization: ToProto(const compute::Declaration&, ...)

    The way back, from a declaration to a Substrait relation, in the same
    two revisions of relation_internal.cc.  Inputs of a declaration are
    declarations throughout (see [Declaration]), so the branches for an
    input that is a live [ExecNode*] have no counterpart here. *)

(** A converter held by the [SubstraitConversionRegistry]: one of the two
    defined in relation_internal.cc, or any other function of the same
    signature (bind schema, possibly null, and declaration). *)
Inductive Converter (E : Collaborators) : Type :=
| ScanConverter
| FilterConverter
| OtherConverter
    (convert : option (list (Field E)) -> Declaration E -> Result (Rel E)).

Arguments ScanConverter {E}.
Arguments FilterConverter {E}.
Arguments OtherConverter {E} convert.

Record Serializers (E : Collaborators) : Type := {
  (* expression_internal.cc; [None] is a default-constructed Expression *)
  ToProto_Expression :
    option (Expression (Datum E)) -> Result (substrait_Expression E);
  (* type_internal.cc *)
  ToProto_Schema : list (Field E) -> Result (substrait_NamedStruct E);
  (* dataset::Dataset::schema() *)
  Dataset_schema : Dataset E -> list (Field E);
  (* dynamic_cast<dataset::FileSystemDataset*>(dataset): its files(), or
     [None] for nullptr *)
  FileSystemDataset_files : Dataset E -> option (list string);
  (* format()->type_name() *)
  format_type_name : Dataset E -> string;
  (* compute::Expression::IsBound, Expression::Bind *)
  IsBound : Expression (Datum E) -> bool;
  Bind : Expression (Datum E) -> list (Field E) -> Result (Expression (Datum E));
  (* default_substrait_conversion_registry()->GetConverter(name) *)
  GetConverter : string -> Result (Converter E)
}.

(** [compute::equal(l, r)] *)
Definition equal {D} (l r : Expression D) : Expression D := call "equal" [l; r].

(** *** src/cpp/src/arrow/engine/substrait/relation_internal.cc *)
Module DeclSerde.

Inductive ArrowRelationType : Type := SCAN | FILTER | PROJECT | JOIN | AGGREGATE.

Definition enum_map : list (string * ArrowRelationType) :=
  [ ("scan", SCAN); ("filter", FILTER); ("project", PROJECT);
    ("hashjoin", JOIN); ("aggregate", AGGREGATE) ].

(** [enum_map.find(name)]: the entry, or [None] for [end()]. *)
Definition enum_map_find (name : string) : option (string * ArrowRelationType) :=
  find (fun entry => (fst entry =? name)%string) enum_map.

Section ToProto.

Context (E : Collaborators) (S : Serializers E).

(** Body of the loop over [dataset->files()]. *)
Definition file_item (format_type_name : string) (file : string)
  : Result FileOrFiles :=
  let uri_path := ("file://" ++ file)%string in
  if (format_type_name =? "parquet")%string
     || (format_type_name =? "arrow")%string
     || (format_type_name =? "feather")%string
  then Ok (mkFileOrFiles (kUriPath uri_path) FILE_FORMAT_NOT_SET
                         FILE_FORMAT_PARQUET 0 0 0)
  else Status_Invalid ("Unsupported file type : " ++ format_type_name)%string.

(** [ExtractRelation::AddReadRelation]; the result is the [rel_] it fills. *)
Definition AddReadRelation (declaration : Declaration E) : Result (Rel E) :=
  match options declaration with
  | ScanNodeOptions dataset _ =>
      match FileSystemDataset_files S dataset with
      | None =>
          Status_Invalid
            "Can only convert file system datasets to a Substrait plan."
      | Some files =>
          named_struct <- ToProto_Schema S (Dataset_schema S dataset) ;;
          read_rel_lfs <- for_each (file_item (format_type_name S dataset)) files ;;
          Ok (RelRead (mkReadRel E None named_struct None false
                         (Some (mkLocalFiles read_rel_lfs false)) false))
      end
  | _ => Undefined
  end.

(** [ExtractRelation::AddJoinRelation] after its inputs have been
    converted. *)
Definition join_relation (join_node_options : HashJoinNodeOptions)
           (left_rel right_rel : Rel E) : Result (Rel E) :=
  l0 <- index (left_keys join_node_options) 0 ;;
  r0 <- index (right_keys join_node_options) 0 ;;
  let left_key : Expression (Datum E) := field_ref l0 in
  let right_key : Expression (Datum E) := field_ref r0 in
  join_key_cmp <- index (key_cmp join_node_options) 0 ;;
  match join_key_cmp with
  | EQ =>
      let join_expression := equal left_key right_key in
      sub_join_expr <- ToProto_Expression S (Some join_expression) ;;
      (* the join type of the JoinRel is never set *)
      Ok (RelJoin None (Some left_rel) (Some right_rel) (Some sub_join_expr)
                  JOIN_TYPE_UNSPECIFIED false)
  | IS => Status_NotImplemented "is_not_distinct_from not implemented"
  end.

(** [ToProto], through [ExtractRelation::operator()] and [AddRelation];
    the join case holds [AddJoinRelation] and
    [GetJoinRelationFromDeclaration]. *)
Fixpoint ToProto (declaration : Declaration E) : Result (Rel E) :=
  match declaration with
  | mkDeclaration rel_name declaration_inputs declaration_options =>
      match enum_map_find rel_name with
      | None => Undefined
      | Some (_, SCAN) => AddReadRelation declaration
      | Some (_, FILTER) => Status_NotImplemented "Filter operator not supported."
      | Some (_, PROJECT) => Status_NotImplemented "Project operator not supported."
      | Some (_, JOIN) =>
          match declaration_options with
          | HashJoinOptions join_node_options =>
              match declaration_inputs with
              | declr_left :: declr_right :: _ =>
                  left_rel <- ToProto declr_left ;;
                  right_rel <- ToProto declr_right ;;
                  join_relation join_node_options left_rel right_rel
              | _ => Undefined
              end
          | _ => Undefined
          end
      | Some (_, AGGREGATE) =>
          Status_NotImplemented "Aggregate operator not supported."
      end
  end.

End ToProto.
End DeclSerde.

(** *** src/unnamed/part_004 *)
Module InfoSerde.
Section ToProto.

Context (E : Collaborators) (S : Serializers E).

(** [rel.has_read()], [rel.has_filter()] *)
Definition has_read (rel : Rel E) : bool :=
  match rel with RelRead _ => true | _ => false end.
Definition has_filter (rel : Rel E) : bool :=
  match rel with RelFilter _ _ _ _ => true | _ => false end.

(** [SetRelation]; the result is what [plan] holds afterwards: the
    relation released from [partial_plan] takes the place of whatever the
    [rel_type] oneof of [plan] held. *)
Definition SetRelation (plan partial_plan : Rel E) (factory_name : string)
  : Result (Rel E) :=
  if (factory_name =? "scan")%string && has_read partial_plan
  then Ok partial_plan
  else if (factory_name =? "filter")%string && has_filter partial_plan
  then Ok partial_plan
  else Status_NotImplemented
         ("Substrait converter " ++ factory_name ++ " not supported.")%string.

(** [ExtractSchemaToBind]; [None] is the null schema. *)
Fixpoint ExtractSchemaToBind (declr : Declaration E)
  : Result (option (list (Field E))) :=
  match declr with
  | mkDeclaration name declr_inputs declr_options =>
      if (name =? "scan")%string then
        match declr_options with
        | ScanNodeOptions dataset _ => Ok (Some (Dataset_schema S dataset))
        | _ => Undefined
        end
      else if (name =? "filter")%string then
        match declr_inputs with
        | input_declr :: _ => ExtractSchemaToBind input_declr
        | [] => Undefined
        end
      else if (name =? "sink")%string then Ok None
      else Status_Invalid
             ("Schema extraction failed, unsupported factory " ++ name)%string
  end.

(** Body of the loop over [dataset->files()]. *)
Definition file_item (format_type_name : string) (file : string)
  : Result FileOrFiles :=
  let uri_path := ("file://" ++ file)%string in
  if (format_type_name =? "parquet")%string
  then Ok (mkFileOrFiles (kUriPath uri_path) kParquet FILE_FORMAT_UNSPECIFIED 0 0 0)
  else if (format_type_name =? "arrow")%string
  then Ok (mkFileOrFiles (kUriPath uri_path) kArrow FILE_FORMAT_UNSPECIFIED 0 0 0)
  else if (format_type_name =? "orc")%string
  then Ok (mkFileOrFiles (kUriPath uri_path) kOrc FILE_FORMAT_UNSPECIFIED 0 0 0)
  else Status_NotImplemented ("Unsupported file type: " ++ format_type_name)%string.

(** [ScanRelationConverter] *)
Definition ScanRelationConverter (schema : option (list (Field E)))
           (declaration : Declaration E) : Result (Rel E) :=
  match options declaration with
  | ScanNodeOptions dataset _ =>
      match FileSystemDataset_files S dataset with
      | None =>
          Status_Invalid
            "Can only convert file system datasets to a Substrait plan."
      | Some files =>
          named_struct <- ToProto_Schema S (Dataset_schema S dataset) ;;
          read_rel_lfs <- for_each (file_item (format_type_name S dataset)) files ;;
          Ok (RelRead (mkReadRel E None named_struct None false
                         (Some (mkLocalFiles read_rel_lfs false)) false))
      end
  | _ => Undefined
  end.

(** [FilterRelationConverter], given [ToProto] for its input
    ([GetRelationFromDeclaration] is [ToProto] of [inputs[0]]).  The Result
    of converting the input is dereferenced without a test. *)
Definition FilterRelationConverter
           (ToProto : Declaration E -> Result (Rel E))
           (schema : option (list (Field E)))
           (declaration : Declaration E) : Result (Rel E) :=
  match options declaration with
  | FilterNodeOptions filter_expr =>
      bound_expression <-
        (if negb (IsBound S filter_expr) then
           match schema with
           | Some fields => b <- Bind S filter_expr fields ;; Ok (Some b)
           | None => Undefined
           end
         else Ok None) ;;
      match inputs declaration with
      | [] => Status_Invalid "Filter node doesn't have an input."
      | declr_input :: _ =>
          match ToProto declr_input with
          | Ok input_rel =>
              subs_expr <- ToProto_Expression S bound_expression ;;
              Ok (RelFilter None (Some input_rel) (Some subs_expr) false)
          | _ => Undefined
          end
      end
  | _ => Undefined
  end.

(** [SerializeAndCombineRelations]; the result is what [rel] holds
    afterwards.  [ToProto] starts it on a fresh [substrait::Rel]. *)
Fixpoint SerializeAndCombineRelations (declaration : Declaration E)
         (rel : Rel E) {struct declaration} : Result (Rel E) :=
  match declaration with
  | mkDeclaration factory_name declaration_inputs declaration_options =>
      rel <- for_state
               (fun rel input_decl =>
                  SerializeAndCombineRelations input_decl rel)
               declaration_inputs rel ;;
      schema <- ExtractSchemaToBind declaration ;;
      if negb (factory_name =? "sink")%string then
        factory <- GetConverter S factory_name ;;
        factory_rel <-
          match factory with
          | ScanConverter => ScanRelationConverter schema declaration
          | FilterConverter =>
              FilterRelationConverter
                (fun declr => SerializeAndCombineRelations declr RelOther)
                schema declaration
          | OtherConverter convert => convert schema declaration
          end ;;
        SetRelation rel factory_rel factory_name
      else Ok rel
  end.

Definition ToProto (declr : Declaration E) : Result (Rel E) :=
  SerializeAndCombineRelations declr RelOther.

End ToProto.
End InfoSerde.

(** ** A second set of collaborators, with serializers

    Substrait expressions are either given translated or of a kind the
    expression translation does not support; datasets record their file
    format by name; expressions are bound by resolving field names against
    the schema.  The filesystem is the one of [Sample]. *)
Module Catalog.

Inductive SubstraitExpression : Type :=
| Translated (e : Expression Z)
| Unsupported (what : string).

Record CatalogDataset : Type := mkCatalogDataset {
  cat_files : list Sample.PlainFileInfo;
  cat_type_name : string;
  cat_schema : list string;
  (* a FileSystemDataset, as opposed to e.g. an in-memory dataset *)
  cat_on_filesystem : bool
}.

Definition type_name_of (format : option FileFormat) : string :=
  match format with
  | Some ParquetFileFormat => "parquet"
  | Some IpcFileFormat => "ipc"
  | None => ""
  end.

Definition env : Collaborators := {|
  substrait_Expression := SubstraitExpression;
  substrait_NamedStruct := list string;
  Datum := Z;
  Field := string;
  FileInfo := Sample.PlainFileInfo;
  Dataset := CatalogDataset;
  DatasetFactory := list Sample.PlainFileInfo * option FileFormat;
  FromProto_Expression := fun e =>
    match e with
    | Translated e => Ok e
    | Unsupported what => Raise (mkStatus NotImplemented what)
    end;
  FromProto_NamedStruct := fun s => Ok s;
  Expression_ToString := fun _ => "<expression>";
  DecodeFunction := fun anchor => if anchor =? 0 then Ok "sum" else
                      Raise (mkStatus Invalid "no such function");
  FileInfo_make := Sample.mkFileInfo;
  FileInfo_type := Sample.type_;
  FileInfo_moved_from := fun f => Sample.mkFileInfo "" (Sample.type_ f);
  GetFileInfo := fun p => Ok (Sample.stat p);
  GetFileInfo_selector := Sample.list_dir;
  GlobFiles := Sample.glob;
  FileSystemDatasetFactory_Make := fun files format => Ok (files, format);
  DatasetFactory_Finish := fun f schema =>
    Ok (mkCatalogDataset (fst f) (type_name_of (snd f)) schema true)
|}.

Definition debug (_ : Rel env) : string := "<rel>".

(** Position of a name in a schema. *)
Fixpoint position (name : string) (schema : list string) : option Z :=
  match schema with
  | [] => None
  | n :: rest =>
      if (n =? name)%string then Some 0
      else option_map Z.succ (position name rest)
  end.

(** An expression is bound when it is a literal, a reference by position,
    or a call; binding resolves a reference by name at the top. *)
Definition is_bound (e : Expression Z) : bool :=
  match e with
  | field_ref (FieldName _) => false
  | _ => true
  end.

Definition bind_names (e : Expression Z) (schema : list string)
  : Result (Expression Z) :=
  match e with
  | field_ref (FieldName name) =>
      match position name schema with
      | Some i => Ok (field_ref (FieldPath [i]))
      | None => Raise (mkStatus Invalid ("No match for FieldRef " ++ name)%string)
      end
  | _ => Ok e
  end.

Definition to_proto (e : option (Expression Z)) : Result SubstraitExpression :=
  match e with
  | Some e => Ok (Translated e)
  | None => Raise (mkStatus Invalid "empty expression")
  end.

Definition files_of (d : CatalogDataset) : option (list string) :=
  if cat_on_filesystem d then Some (map Sample.path (cat_files d)) else None.

Definition registry (name : string) : Result (Converter env) :=
  if (name =? "scan")%string then Ok ScanConverter
  else if (name =? "filter")%string then Ok FilterConverter
  else Raise (mkStatus KeyError "no converter").

Definition serializers : Serializers env :=
  @Build_Serializers env to_proto (fun s : list string => Ok s) cat_schema
                     files_of cat_type_name is_bound bind_names registry.

(** The same serializers, except that a default-constructed expression is
    written as an expression message with nothing set. *)
Definition nothing_set : SubstraitExpression := Unsupported "rex_type not set".

Definition to_proto_or_nothing (e : option (Expression Z))
  : Result SubstraitExpression :=
  match e with
  | Some e => Ok (Translated e)
  | None => Ok nothing_set
  end.

Definition lenient_serializers : Serializers env :=
  @Build_Serializers env to_proto_or_nothing (fun s : list string => Ok s)
                     cat_schema files_of cat_type_name is_bound bind_names
                     registry.

(** A scan of /tmp/dat1.parquet with columns A, B, C, recorded with the
    given format name and scan filter. *)
Definition dataset (type_name : string) : CatalogDataset :=
  mkCatalogDataset [Sample.mkFileInfo "/tmp/dat1.parquet" File] type_name
                   ["A"; "B"; "C"] true.

Definition scan (type_name : string) (filter : option (Expression Z))
  : Declaration env :=
  mkDeclaration "scan" []
    (@ScanNodeOptions env (dataset type_name) (@mkScanOptions env filter true)).

Definition filter_over (input : Declaration env) (e : Expression Z)
  : Declaration env :=
  mkDeclaration "filter" [input] (@FilterNodeOptions env e).

Definition hashjoin (l r : Declaration env) (o : HashJoinNodeOptions)
  : Declaration env :=
  mkDeclaration "hashjoin" [l; r] (@HashJoinOptions env o).

(** The ReadRel a scan of /tmp/dat1.parquet is read from. *)
Definition read_dat1 : Rel env :=
  RelRead (mkReadRel env None ["A"; "B"; "C"] None false
             (Some (mkLocalFiles
                      [mkFileOrFiles (kUriFile "file:///tmp/dat1.parquet")
                                     kParquet FILE_FORMAT_PARQUET 0 0 0]
                      false)) false).

Definition info_dat1 : DeclarationInfo env :=
  mkDeclarationInfo (scan "parquet" None) 3.

(** What the two revisions of ToProto make of a scan of /tmp/dat1.parquet:
    a ReadRel with one [uri_path] item. *)
Definition read_back (file_format : FileFormatCase) (format : FileFormatEnum)
  : Rel env :=
  RelRead (mkReadRel env None ["A"; "B"; "C"] None false
             (Some (mkLocalFiles
                      [mkFileOrFiles (kUriPath "file:///tmp/dat1.parquet")
                                     file_format format 0 0 0]
                      false)) false).

End Catalog.

(** ** Vocabulary of the serialization statements *)

(** [n] is a node of the declaration tree [d]: [d] itself or a node of one
    of its inputs. *)
Inductive node_of {E : Collaborators} (n : Declaration E)
  : Declaration E -> Prop :=
| node_self : node_of n n
| node_input name inputs options input :
    In input inputs -> node_of n input ->
    node_of n (mkDeclaration name inputs options).

(** Following the first input from filter to filter, [d] ends in a scan of
    [dataset]. *)
Inductive filters_over_scan {E : Collaborators} (dataset : Dataset E)
  : Declaration E -> Prop :=
| over_scan inputs scan_options :
    filters_over_scan dataset
      (mkDeclaration "scan" inputs (ScanNodeOptions dataset scan_options))
| over_filter input rest options :
    filters_over_scan dataset input ->
    filters_over_scan dataset (mkDeclaration "filter" (input :: rest) options).


(** * Properties *)

(** ** The Result monad *)

Lemma bind_Ok_inv A B (r : Result A) (k : A -> Result B) (b : B) :
  bind r k = Ok b -> exists a, r = Ok a /\ k a = Ok b.
Proof.
  destruct r as [a | st | ]; simpl; intros H; try discriminate.
  exists a; split; [reflexivity | exact H].
Qed.

Lemma bind_Ok_l A B (r : Result A) (k : A -> Result B) (a : A) :
  r = Ok a -> bind r k = k a.
Proof. intros ->; reflexivity. Qed.

Lemma bind_Raise_l A B (r : Result A) (k : A -> Result B) (st : Status) :
  r = Raise st -> bind r k = Raise st.
Proof. intros ->; reflexivity. Qed.


Lemma is_error_not_Ok A (r : Result A) (a : A) : is_error r -> r <> Ok a.
Proof. intros [st ->]; discriminate. Qed.

Ltac inv_bind H :=
  let a := fresh "v" in
  let Ha := fresh "Hv" in
  apply bind_Ok_inv in H; destruct H as (a & Ha & H).

(** ** Strings and integers *)

Example starts_with_file_uri :
  starts_with "file:///tmp/dat1.parquet" "file:///" = true /\
  starts_with "s3://bucket/dat1.parquet" "file:///" = false.
Proof. split; reflexivity. Qed.

Example ends_with_extension :
  ends_with "file:///tmp/dat1.arrow" ".arrow" = true /\
  ends_with "file:///tmp/dat1.parquet" ".arrow" = false /\
  ends_with "row" ".arrow" = false.
Proof. repeat split; reflexivity. Qed.

Example substr_drops_scheme :
  substr "file:///tmp/dat1.parquet" 7 = "/tmp/dat1.parquet".
Proof. reflexivity. Qed.

Example static_cast_int_wraps :
  static_cast_int 3 = 3 /\ static_cast_int 2147483648 = -2147483648 /\
  static_cast_int 4294967296 = 0.
Proof. repeat split; reflexivity. Qed.

Example int_add_overflow :
  int_add 3 3 = Ok 6 /\ int_add INT_MAX 1 = Undefined.
Proof. split; reflexivity. Qed.

(** ** Checks shared by every relation *)

Lemma CheckRelCommon_Ok_or_NotImplemented (c : option RelCommon) (adv : bool) :
  CheckRelCommon c adv = Ok tt \/ raises NotImplemented (CheckRelCommon c adv).
Proof.
  destruct c as [[[|] [|] [|]] | ]; destruct adv; cbn;
    solve [left; reflexivity | right; eexists; reflexivity].
Qed.

Lemma CheckRelCommon_absent : CheckRelCommon None false = Ok tt.
Proof. reflexivity. Qed.

Lemma Sequence_pair E (input d : Declaration E) :
  Sequence [input; d] = Ok (emplace_input d input).
Proof. reflexivity. Qed.

Lemma for_each_length A B (f : A -> Result B) (xs : list A) (ys : list B) :
  for_each f xs = Ok ys -> length ys = length xs.
Proof.
  revert ys; induction xs as [| x xs IH]; simpl; intros ys H.
  - injection H as <-; reflexivity.
  - inv_bind H. inv_bind H. injection H as <-. simpl. f_equal. now apply IH.
Qed.

Lemma for_each_nth A B (f : A -> Result B) (xs : list A) (ys : list B) :
  for_each f xs = Ok ys ->
  forall i x, nth_error xs i = Some x ->
              exists y, nth_error ys i = Some y /\ f x = Ok y.
Proof.
  revert ys; induction xs as [| x0 xs IH]; simpl; intros ys H i x Hi.
  - destruct i; discriminate.
  - inv_bind H. inv_bind H. injection H as <-.
    destruct i as [| i]; simpl in *.
    + injection Hi as <-. eauto.
    + eapply IH; eauto.
Qed.

(** ** The join case *)

Lemma join_type_switch_Ok_or_error (t : JoinRel_JoinType) :
  (exists jt, join_type_switch t = Ok jt) \/ is_error (join_type_switch t).
Proof.
  destruct t; cbn;
    solve [left; eexists; reflexivity | right; eexists; reflexivity].
Qed.

Section JoinOptions.

Context (E : Collaborators).

Lemma join_options_of_Ok_inv (jt : JoinType) (ex : Expression (Datum E))
      (o : HashJoinNodeOptions) :
  join_options_of E jt ex = Ok o ->
  exists f args lk rk cmp,
    ex = call f args /\
    ((f = "equal" /\ cmp = EQ) \/ (f = "is_not_distinct_from" /\ cmp = IS)) /\
    nth_error args 0 = Some (field_ref lk) /\
    nth_error args 1 = Some (field_ref rk) /\
    o = mkHashJoinNodeOptions jt [lk] [rk] [cmp].
Proof.
  unfold join_options_of.
  destruct ex as [d | ref | f args]; simpl; try discriminate.
  intros H. inv_bind H. rename v into cmp.
  assert (Hcmp : (f = "equal" /\ cmp = EQ) \/
                 (f = "is_not_distinct_from" /\ cmp = IS)).
  { destruct (String.eqb_spec f "equal") as [-> | _].
    - injection Hv as <-. left; split; reflexivity.
    - destruct (String.eqb_spec f "is_not_distinct_from") as [-> | _].
      + injection Hv as <-. right; split; reflexivity.
      + discriminate. }
  clear Hv.
  inv_bind H. rename v into a0. inv_bind H. rename v into a1.
  unfold index in *.
  destruct (nth_error args 0) as [a0' |] eqn:H0; try discriminate.
  destruct (nth_error args 1) as [a1' |] eqn:H1; try discriminate.
  injection Hv as ->. injection Hv0 as ->.
  destruct a0 as [? | lk | ? ?]; simpl in H; try discriminate.
  destruct a1 as [? | rk | ? ?]; simpl in H; try discriminate.
  injection H as <-.
  exists f, args, lk, rk, cmp. repeat split; auto.
Qed.

Lemma join_options_of_keys_Ok (jt : JoinType) (f : string)
      (args : list (Expression (Datum E))) (lk rk : FieldRef) (cmp : JoinKeyCmp) :
  (f = "equal" /\ cmp = EQ) \/ (f = "is_not_distinct_from" /\ cmp = IS) ->
  nth_error args 0 = Some (field_ref lk) ->
  nth_error args 1 = Some (field_ref rk) ->
  join_options_of E jt (call f args) = Ok (mkHashJoinNodeOptions jt [lk] [rk] [cmp]).
Proof.
  intros Hf H0 H1. unfold join_options_of, index.
  cbn [Expression_call].
  rewrite H0, H1.
  destruct Hf as [[-> ->] | [-> ->]]; reflexivity.
Qed.



Lemma join_options_of_short_arguments (jt : JoinType) (f : string)
      (args : list (Expression (Datum E))) :
  f = "equal" \/ f = "is_not_distinct_from" ->
  (length args < 2)%nat ->
  join_options_of E jt (call f args) = Undefined.
Proof.
  intros Hf Hlen. unfold join_options_of, index.
  cbn [Expression_call].
  destruct args as [| a0 [| a1 rest]]; simpl in Hlen; try lia;
    destruct Hf as [-> | ->]; reflexivity.
Qed.

End JoinOptions.

Section JoinCase.

Context (E : Collaborators).
Variable DebugString : Rel E -> string.

Lemma Decl_join_Ok_inv c jl jr e t adv (d : Declaration E) :
  Decl.FromProto DebugString (RelJoin c jl jr e t adv) = Ok d ->
  exists l r se jt L R ex o,
    jl = Some l /\ jr = Some r /\ e = Some se /\
    CheckRelCommon c adv = Ok tt /\
    join_type_switch t = Ok jt /\
    Decl.FromProto DebugString l = Ok L /\
    Decl.FromProto DebugString r = Ok R /\
    FromProto_Expression E se = Ok ex /\
    join_options_of E jt ex = Ok o /\
    d = hashjoin_declaration L R o.
Proof.
  intros H. simpl in H.
  inv_bind H. destruct v.
  destruct jl as [l |]; [| discriminate].
  destruct jr as [r |]; [| discriminate].
  inv_bind H. rename v into jt.
  inv_bind H. rename v into L.
  inv_bind H. rename v into R.
  destruct e as [se |]; [| discriminate].
  inv_bind H. rename v into ex.
  inv_bind H. rename v into o.
  injection H as <-.
  exists l, r, se, jt, L, R, ex, o. repeat split; assumption.
Qed.

Lemma Decl_join_reaches_expression c l r se t adv jt L R ex :
  CheckRelCommon c adv = Ok tt ->
  join_type_switch t = Ok jt ->
  Decl.FromProto DebugString l = Ok L ->
  Decl.FromProto DebugString r = Ok R ->
  FromProto_Expression E se = Ok ex ->
  Decl.FromProto DebugString (RelJoin c (Some l) (Some r) (Some se) t adv) =
  (o <- join_options_of E jt ex ;; Ok (hashjoin_declaration L R o)).
Proof.
  intros Hc Ht Hl Hr He. simpl.
  rewrite Hc, Ht. simpl. rewrite Hl. simpl. rewrite Hr. simpl.
  rewrite He. reflexivity.
Qed.

Lemma Info_join_Ok_inv c jl jr e t adv (d : DeclarationInfo E) :
  Info.FromProto DebugString (RelJoin c jl jr e t adv) = Ok d ->
  exists l r se jt L R ex o,
    jl = Some l /\ jr = Some r /\ e = Some se /\
    CheckRelCommon c adv = Ok tt /\
    join_type_switch t = Ok jt /\
    Info.FromProto DebugString l = Ok L /\
    Info.FromProto DebugString r = Ok R /\
    FromProto_Expression E se = Ok ex /\
    join_options_of E jt ex = Ok o /\
    int_add (num_columns L) (num_columns R) = Ok (num_columns d) /\
    declaration d = hashjoin_declaration (declaration L) (declaration R) o.
Proof.
  intros H. simpl in H.
  inv_bind H. destruct v.
  destruct jl as [l |]; [| discriminate].
  destruct jr as [r |]; [| discriminate].
  inv_bind H. rename v into jt.
  inv_bind H. rename v into L.
  inv_bind H. rename v into R.
  destruct e as [se |]; [| discriminate].
  inv_bind H. rename v into ex.
  inv_bind H. rename v into o.
  inv_bind H. rename v into n.
  injection H as <-.
  exists l, r, se, jt, L, R, ex, o. simpl. repeat split; assumption.
Qed.

Lemma Info_join_reaches_expression c l r se t adv jt L R ex :
  CheckRelCommon c adv = Ok tt ->
  join_type_switch t = Ok jt ->
  Info.FromProto DebugString l = Ok L ->
  Info.FromProto DebugString r = Ok R ->
  FromProto_Expression E se = Ok ex ->
  Info.FromProto DebugString (RelJoin c (Some l) (Some r) (Some se) t adv) =
  (o <- join_options_of E jt ex ;;
   n <- int_add (num_columns L) (num_columns R) ;;
   Ok (mkDeclarationInfo
         (hashjoin_declaration (declaration L) (declaration R) o) n)).
Proof.
  intros Hc Ht Hl Hr He. simpl.
  rewrite Hc, Ht. simpl. rewrite Hl. simpl. rewrite Hr. simpl.
  rewrite He. reflexivity.
Qed.

Lemma int_add_Ok_inv (a b n : Z) : int_add a b = Ok n -> n = a + b.
Proof.
  unfold int_add.
  destruct ((INT_MIN <=? a + b) && (a + b <=? INT_MAX)); [| discriminate].
  intros H; injection H as <-; reflexivity.
Qed.

End JoinCase.

(** ** The sample scans

    Evaluation on the sample collaborators goes through [reflexivity]. *)

Lemma Sample_scan_abc : Info.FromProto Sample.debug Sample.scan_abc = Ok Sample.info_abc.
Proof. reflexivity. Qed.
Lemma Sample_scan_xya : Info.FromProto Sample.debug Sample.scan_xya = Ok Sample.info_xya.
Proof. reflexivity. Qed.
Lemma Sample_scan_abc_older :
  Decl.FromProto Sample.debug Sample.scan_abc = Ok (declaration Sample.info_abc).
Proof. reflexivity. Qed.
Lemma Sample_scan_xya_older :
  Decl.FromProto Sample.debug Sample.scan_xya = Ok (declaration Sample.info_xya).
Proof. reflexivity. Qed.

(** ** Join kinds *)

Section JoinKinds.

Context (E : Collaborators).
Variable DebugString : Rel E -> string.

Lemma specified_join_kind_switch (t : JoinRel_JoinType) (k jt : JoinType) :
  specified_join_kind t = Some k -> join_type_switch t = Ok jt -> jt = k.
Proof. destruct t; simpl; intros [= <-] [= <-]; reflexivity. Qed.

Lemma unspecified_join_kind_switch (t : JoinRel_JoinType) :
  specified_join_kind t = None -> is_error (join_type_switch t).
Proof. destruct t; simpl; intros; try discriminate; eexists; reflexivity. Qed.

Lemma Decl_join_bad_switch c jl jr e t adv :
  is_error (join_type_switch t) ->
  is_error (Decl.FromProto DebugString (RelJoin c jl jr e t adv)).
Proof.
  intros [st Hst]. simpl.
  destruct (CheckRelCommon_Ok_or_NotImplemented c adv) as [-> | [msg ->]];
    simpl; [| eexists; reflexivity].
  destruct jl; [| eexists; reflexivity].
  destruct jr; [| eexists; reflexivity].
  rewrite Hst. eexists; reflexivity.
Qed.

Lemma Info_join_bad_switch c jl jr e t adv :
  is_error (join_type_switch t) ->
  is_error (Info.FromProto DebugString (RelJoin c jl jr e t adv)).
Proof.
  intros [st Hst]. simpl.
  destruct (CheckRelCommon_Ok_or_NotImplemented c adv) as [-> | [msg ->]];
    simpl; [| eexists; reflexivity].
  destruct jl; [| eexists; reflexivity].
  destruct jr; [| eexists; reflexivity].
  rewrite Hst. eexists; reflexivity.
Qed.

Lemma specified_join_kind_accepted (t : JoinRel_JoinType) (k : JoinType) :
  specified_join_kind t = Some k -> join_type_switch t = Ok k.
Proof. destruct t; simpl; intros [= <-]; reflexivity. Qed.

(** C1.  In both revisions, a JoinRel of one of the six listed Substrait
    join types maps to the join kind the specification assigns to it (INNER
    to inner, OUTER to full outer, LEFT to left outer, RIGHT to right
    outer, SEMI to left semi, ANTI to left anti): whatever it is translated
    to carries that kind, and it is translated, to a "hashjoin" of that
    kind, whenever the rest of the relation is acceptable (no unsupported
    extension, both inputs translated, a key comparison on two field
    references, and in the later revision a column count within [int]).  A
    JoinRel of unspecified or any other type is never translated: the
    result is an error. *)
Theorem join_type_mapping c jl jr e (t : JoinRel_JoinType) adv :
  (forall k, specified_join_kind t = Some k ->
     (forall d, Decl.FromProto DebugString (RelJoin c jl jr e t adv) = Ok d ->
        exists o, join_options d = Some o /\ join_type o = k) /\
     (forall d, Info.FromProto DebugString (RelJoin c jl jr e t adv) = Ok d ->
        exists o, join_options (declaration d) = Some o /\ join_type o = k) /\
     (forall l r se f lk rk rest cmp,
        jl = Some l -> jr = Some r -> e = Some se ->
        CheckRelCommon c adv = Ok tt ->
        FromProto_Expression E se
        = Ok (call f (field_ref lk :: field_ref rk :: rest)) ->
        (f = "equal" /\ cmp = EQ) \/ (f = "is_not_distinct_from" /\ cmp = IS) ->
        (forall L R,
           Decl.FromProto DebugString l = Ok L ->
           Decl.FromProto DebugString r = Ok R ->
           Decl.FromProto DebugString (RelJoin c jl jr e t adv)
           = Ok (hashjoin_declaration L R
                   (mkHashJoinNodeOptions k [lk] [rk] [cmp]))) /\
        (forall L R n,
           Info.FromProto DebugString l = Ok L ->
           Info.FromProto DebugString r = Ok R ->
           int_add (num_columns L) (num_columns R) = Ok n ->
           Info.FromProto DebugString (RelJoin c jl jr e t adv)
           = Ok (mkDeclarationInfo
                   (hashjoin_declaration (declaration L) (declaration R)
                      (mkHashJoinNodeOptions k [lk] [rk] [cmp]))
                   n)))) /\
  (specified_join_kind t = None ->
     is_error (Decl.FromProto DebugString (RelJoin c jl jr e t adv)) /\
     is_error (Info.FromProto DebugString (RelJoin c jl jr e t adv))).
Proof.
  split.
  - intros k Hk. split; [| split].
    + intros d H. apply Decl_join_Ok_inv in H.
      destruct H as (l & r & se & jt & L & R & ex & o &
                     _ & _ & _ & _ & Ht & _ & _ & _ & Ho & ->).
      apply join_options_of_Ok_inv in Ho.
      destruct Ho as (f & args & lk & rk & cmp & _ & _ & _ & _ & ->).
      eexists; split; [reflexivity |]. simpl.
      eapply specified_join_kind_switch; eassumption.
    + intros d H. apply Info_join_Ok_inv in H.
      destruct H as (l & r & se & jt & L & R & ex & o &
                     _ & _ & _ & _ & Ht & _ & _ & _ & Ho & _ & ->).
      apply join_options_of_Ok_inv in Ho.
      destruct Ho as (f & args & lk & rk & cmp & _ & _ & _ & _ & ->).
      eexists; split; [reflexivity |]. simpl.
      eapply specified_join_kind_switch; eassumption.
    + intros l r se f lk rk rest cmp -> -> -> Hc He Hf.
      apply specified_join_kind_accepted in Hk.
      split.
      * intros L R Hl Hr.
        erewrite Decl_join_reaches_expression by eassumption.
        erewrite join_options_of_keys_Ok by (try eassumption; reflexivity).
        reflexivity.
      * intros L R n Hl Hr Hn.
        erewrite Info_join_reaches_expression by eassumption.
        erewrite join_options_of_keys_Ok by (try eassumption; reflexivity).
        simpl. rewrite Hn. reflexivity.
  - intros Hn. apply unspecified_join_kind_switch in Hn. split.
    + now apply Decl_join_bad_switch.
    + now apply Info_join_bad_switch.
Qed.

End JoinKinds.

(** Each of the six supported kinds on the two scans of the JoinPlanBasic
    test, in both revisions, and the two rejected shapes. *)
Lemma join_type_mapping_witness :
  let older t :=
    Decl.FromProto Sample.debug
      (Sample.join_of t (call "equal" [Sample.key 0; Sample.key 5])) in
  let later t :=
    Info.FromProto Sample.debug
      (Sample.join_of t (call "equal" [Sample.key 0; Sample.key 5])) in
  let kind_of (r : Result (Declaration Sample.env)) :=
    match r with
    | Ok d => option_map join_type (join_options d)
    | _ => None
    end in
  let kind_of_info (r : Result (DeclarationInfo Sample.env)) :=
    match r with
    | Ok d => option_map join_type (join_options (declaration d))
    | _ => None
    end in
  (kind_of (older JOIN_TYPE_INNER) = Some INNER /\
   kind_of (older JOIN_TYPE_OUTER) = Some FULL_OUTER /\
   kind_of (older JOIN_TYPE_LEFT) = Some LEFT_OUTER /\
   kind_of (older JOIN_TYPE_RIGHT) = Some RIGHT_OUTER /\
   kind_of (older JOIN_TYPE_SEMI) = Some LEFT_SEMI /\
   kind_of (older JOIN_TYPE_ANTI) = Some LEFT_ANTI) /\
  (kind_of_info (later JOIN_TYPE_INNER) = Some INNER /\
   kind_of_info (later JOIN_TYPE_OUTER) = Some FULL_OUTER /\
   kind_of_info (later JOIN_TYPE_LEFT) = Some LEFT_OUTER /\
   kind_of_info (later JOIN_TYPE_RIGHT) = Some RIGHT_OUTER /\
   kind_of_info (later JOIN_TYPE_SEMI) = Some LEFT_SEMI /\
   kind_of_info (later JOIN_TYPE_ANTI) = Some LEFT_ANTI) /\
  (is_error (older JOIN_TYPE_UNSPECIFIED) /\
   is_error (older (JOIN_TYPE_other 7)) /\
   is_error (later JOIN_TYPE_UNSPECIFIED) /\
   is_error (later (JOIN_TYPE_other 7))).
Proof.
  intros older later kind_of kind_of_info.
  pose (on := fun t =>
    join_type_mapping Sample.debug None (Some Sample.scan_abc)
      (Some Sample.scan_xya)
      (Some (call "equal" [Sample.key 0; Sample.key 5])) t false).
  assert (Hacc : forall t k,
             specified_join_kind t = Some k ->
             kind_of (older t) = Some k /\ kind_of_info (later t) = Some k).
  { intros t k Hk.
    destruct (proj1 (on t) k Hk) as (_ & _ & Hyes).
    destruct (Hyes Sample.scan_abc Sample.scan_xya
                (call "equal" [Sample.key 0; Sample.key 5]) "equal"
                (FieldPath [0]) (FieldPath [5]) [] EQ
                eq_refl eq_refl eq_refl eq_refl eq_refl
                (or_introl (conj eq_refl eq_refl)))
      as [Hdecl Hinfo].
    unfold kind_of, kind_of_info, older, later, Sample.join_of.
    rewrite (Hdecl _ _ Sample_scan_abc_older Sample_scan_xya_older).
    rewrite (Hinfo _ _ 6 Sample_scan_abc Sample_scan_xya eq_refl).
    split; reflexivity. }
  split; [| split].
  - repeat split; apply Hacc; reflexivity.
  - repeat split; apply Hacc; reflexivity.
  - repeat split.
    + exact (proj1 (proj2 (on JOIN_TYPE_UNSPECIFIED) eq_refl)).
    + exact (proj1 (proj2 (on (JOIN_TYPE_other 7)) eq_refl)).
    + exact (proj2 (proj2 (on JOIN_TYPE_UNSPECIFIED) eq_refl)).
    + exact (proj2 (proj2 (on (JOIN_TYPE_other 7)) eq_refl)).
Defined.

(** ** Inputs and keys of a translated join *)

Section JoinInputs.

Context (E : Collaborators).
Variable DebugString : Rel E -> string.

(** C2.  In both revisions, a translated JoinRel is a "hashjoin" declaration
    with exactly two inputs: inputs[0] is the translation of JoinRel.left,
    inputs[1] the translation of JoinRel.right; its left key is the field
    referenced by the first argument of the key-comparison call and its
    right key the field referenced by the second argument.  Such a
    declaration is produced for every JoinRel of a supported type without
    unsupported extension whose inputs translate and whose expression is a
    key comparison on two field references (in the later revision, with a
    column count within [int]). *)
Theorem join_inputs_and_keys c jl jr e t adv :
  (forall d, Decl.FromProto DebugString (RelJoin c jl jr e t adv) = Ok d ->
     exists l r se L R f args lk rk o,
       jl = Some l /\ jr = Some r /\ e = Some se /\
       Decl.FromProto DebugString l = Ok L /\
       Decl.FromProto DebugString r = Ok R /\
       FromProto_Expression E se = Ok (call f args) /\
       nth_error args 0 = Some (field_ref lk) /\
       nth_error args 1 = Some (field_ref rk) /\
       factory_name d = "hashjoin" /\
       inputs d = [L; R] /\
       join_options d = Some o /\
       left_keys o = [lk] /\ right_keys o = [rk]) /\
  (forall d, Info.FromProto DebugString (RelJoin c jl jr e t adv) = Ok d ->
     exists l r se L R f args lk rk o,
       jl = Some l /\ jr = Some r /\ e = Some se /\
       Info.FromProto DebugString l = Ok L /\
       Info.FromProto DebugString r = Ok R /\
       FromProto_Expression E se = Ok (call f args) /\
       nth_error args 0 = Some (field_ref lk) /\
       nth_error args 1 = Some (field_ref rk) /\
       factory_name (declaration d) = "hashjoin" /\
       inputs (declaration d) = [declaration L; declaration R] /\
       join_options (declaration d) = Some o /\
       left_keys o = [lk] /\ right_keys o = [rk]) /\
  (forall l r se jt f lk rk rest,
     jl = Some l -> jr = Some r -> e = Some se ->
     CheckRelCommon c adv = Ok tt ->
     join_type_switch t = Ok jt ->
     FromProto_Expression E se
     = Ok (call f (field_ref lk :: field_ref rk :: rest)) ->
     f = "equal" \/ f = "is_not_distinct_from" ->
     (forall L R,
        Decl.FromProto DebugString l = Ok L ->
        Decl.FromProto DebugString r = Ok R ->
        exists d o,
          Decl.FromProto DebugString (RelJoin c jl jr e t adv) = Ok d /\
          factory_name d = "hashjoin" /\
          inputs d = [L; R] /\
          join_options d = Some o /\
          left_keys o = [lk] /\ right_keys o = [rk]) /\
     (forall L R n,
        Info.FromProto DebugString l = Ok L ->
        Info.FromProto DebugString r = Ok R ->
        int_add (num_columns L) (num_columns R) = Ok n ->
        exists d o,
          Info.FromProto DebugString (RelJoin c jl jr e t adv) = Ok d /\
          factory_name (declaration d) = "hashjoin" /\
          inputs (declaration d) = [declaration L; declaration R] /\
          join_options (declaration d) = Some o /\
          left_keys o = [lk] /\ right_keys o = [rk])).
Proof.
  split; [| split]; [intros d H | intros d H |].
  - apply Decl_join_Ok_inv in H.
    destruct H as (l & r & se & jt & L & R & ex & o &
                   -> & -> & -> & _ & _ & Hl & Hr & He & Ho & ->).
    apply join_options_of_Ok_inv in Ho.
    destruct Ho as (f & args & lk & rk & cmp & -> & _ & H0 & H1 & ->).
    exists l, r, se, L, R, f, args, lk, rk,
           (mkHashJoinNodeOptions jt [lk] [rk] [cmp]).
    repeat split; assumption.
  - apply Info_join_Ok_inv in H.
    destruct H as (l & r & se & jt & L & R & ex & o &
                   -> & -> & -> & _ & _ & Hl & Hr & He & Ho & _ & Hd).
    apply join_options_of_Ok_inv in Ho.
    destruct Ho as (f & args & lk & rk & cmp & -> & _ & H0 & H1 & ->).
    exists l, r, se, L, R, f, args, lk, rk,
           (mkHashJoinNodeOptions jt [lk] [rk] [cmp]).
    rewrite Hd. repeat split; assumption.
  - intros l r se jt f lk rk rest -> -> -> Hc Ht He Hf.
    assert (Hcmp : exists cmp,
               (f = "equal" /\ cmp = EQ) \/
               (f = "is_not_distinct_from" /\ cmp = IS)).
    { destruct Hf as [-> | ->]; [exists EQ | exists IS]; auto. }
    destruct Hcmp as [cmp Hcmp].
    split.
    + intros L R Hl Hr.
      erewrite Decl_join_reaches_expression by eassumption.
      erewrite join_options_of_keys_Ok by (try eassumption; reflexivity).
      eexists _, _. split; [reflexivity |]. repeat split.
    + intros L R n Hl Hr Hn.
      erewrite Info_join_reaches_expression by eassumption.
      erewrite join_options_of_keys_Ok by (try eassumption; reflexivity).
      simpl. rewrite Hn.
      eexists _, _. split; [reflexivity |]. repeat split.
Qed.

End JoinInputs.


(** The join of the JoinPlanBasic test, in both revisions: keys are column
    0 of the left scan and column 5 of the joined row. *)
Lemma join_inputs_and_keys_witness :
  (exists d o,
     Decl.FromProto Sample.debug
       (Sample.join_of JOIN_TYPE_INNER
          (call "equal" [Sample.key 0; Sample.key 5])) = Ok d /\
     factory_name d = "hashjoin" /\
     inputs d = [declaration Sample.info_abc; declaration Sample.info_xya] /\
     join_options d = Some o /\
     left_keys o = [FieldPath [0]] /\ right_keys o = [FieldPath [5]]) /\
  (exists d o,
     Info.FromProto Sample.debug
       (Sample.join_of JOIN_TYPE_INNER
          (call "equal" [Sample.key 0; Sample.key 5])) = Ok d /\
     factory_name (declaration d) = "hashjoin" /\
     inputs (declaration d)
     = [declaration Sample.info_abc; declaration Sample.info_xya] /\
     join_options (declaration d) = Some o /\
     left_keys o = [FieldPath [0]] /\ right_keys o = [FieldPath [5]]).
Proof.
  destruct (join_inputs_and_keys Sample.debug None (Some Sample.scan_abc)
              (Some Sample.scan_xya)
              (Some (call "equal" [Sample.key 0; Sample.key 5]))
              JOIN_TYPE_INNER false) as (Hdecl & Hinfo & _).
  split.
  - eassert (Hd : Decl.FromProto Sample.debug
                    (Sample.join_of JOIN_TYPE_INNER
                       (call "equal" [Sample.key 0; Sample.key 5])) = Ok _)
      by reflexivity.
    destruct (Hdecl _ Hd)
      as (l & r & se & L & R & f & args & lk & rk & o &
          Hl & Hr & Hse & HL & HR & He & H0 & H1 & Hn & Hin & Ho & Hlk & Hrk).
    injection Hl as <-. injection Hr as <-. injection Hse as <-.
    injection He as <- <-. injection H0 as <-. injection H1 as <-.
    rewrite Sample_scan_abc_older in HL. injection HL as <-.
    rewrite Sample_scan_xya_older in HR. injection HR as <-.
    eexists _, o. split; [exact Hd |]. repeat split; assumption.
  - eassert (Hd : Info.FromProto Sample.debug
                    (Sample.join_of JOIN_TYPE_INNER
                       (call "equal" [Sample.key 0; Sample.key 5])) = Ok _)
      by reflexivity.
    destruct (Hinfo _ Hd)
      as (l & r & se & L & R & f & args & lk & rk & o &
          Hl & Hr & Hse & HL & HR & He & H0 & H1 & Hn & Hin & Ho & Hlk & Hrk).
    injection Hl as <-. injection Hr as <-. injection Hse as <-.
    injection He as <- <-. injection H0 as <-. injection H1 as <-.
    rewrite Sample_scan_abc in HL. injection HL as <-.
    rewrite Sample_scan_xya in HR. injection HR as <-.
    eexists _, o. split; [exact Hd |]. repeat split; assumption.
Defined.

(** ** The key-comparison function of a join *)

Section JoinKeyComparison.

Context (E : Collaborators).
Variable DebugString : Rel E -> string.



End JoinKeyComparison.





(** ** Arguments of the key-comparison call *)

Section JoinArguments.

Context (E : Collaborators).
Variable DebugString : Rel E -> string.

(** Once translation has reached the expression, a call to an accepted
    function with fewer than two arguments is indexed past its end: the
    result is no error. *)
Lemma join_short_arguments_undefined c l r se t adv jt f args :
  CheckRelCommon c adv = Ok tt ->
  join_type_switch t = Ok jt ->
  FromProto_Expression E se = Ok (call f args) ->
  f = "equal" \/ f = "is_not_distinct_from" ->
  (length args < 2)%nat ->
  (forall L R,
     Decl.FromProto DebugString l = Ok L ->
     Decl.FromProto DebugString r = Ok R ->
     Decl.FromProto DebugString (RelJoin c (Some l) (Some r) (Some se) t adv)
     = Undefined) /\
  (forall L R,
     Info.FromProto DebugString l = Ok L ->
     Info.FromProto DebugString r = Ok R ->
     Info.FromProto DebugString (RelJoin c (Some l) (Some r) (Some se) t adv)
     = Undefined).
Proof.
  intros Hc Ht He Hf Hlen. split; intros L R Hl Hr.
  - erewrite Decl_join_reaches_expression by eassumption.
    now rewrite join_options_of_short_arguments.
  - erewrite Info_join_reaches_expression by eassumption.
    now rewrite join_options_of_short_arguments.
Qed.

(** C6.  A translated JoinRel declares as many output columns as its left
    input plus its right input, the left input being inputs[0] and the
    right one inputs[1]. *)
Theorem join_num_columns c jl jr e t adv (d : DeclarationInfo E) :
  Info.FromProto DebugString (RelJoin c jl jr e t adv) = Ok d ->
  exists l r L R,
    jl = Some l /\ jr = Some r /\
    Info.FromProto DebugString l = Ok L /\
    Info.FromProto DebugString r = Ok R /\
    inputs (declaration d) = [declaration L; declaration R] /\
    num_columns d = num_columns L + num_columns R.
Proof.
  intros H. apply Info_join_Ok_inv in H.
  destruct H as (l & r & se & jt & L & R & ex & o &
                 -> & -> & _ & _ & _ & Hl & Hr & _ & _ & Hn & Hd).
  exists l, r, L, R. rewrite Hd.
  repeat split; try assumption.
  now apply int_add_Ok_inv.
Qed.

End JoinArguments.

(** C10.  The join of the two sample scans on [equal(field 0)], a call with
    a single argument, in both revisions: translation does not fail with an
    error, [arguments[1]] is read past the end of the argument vector.  A
    call to another function is refused before its arguments are read. *)
Theorem join_arguments_unchecked :
  Decl.FromProto Sample.debug
    (Sample.join_of JOIN_TYPE_INNER (call "equal" [Sample.key 0])) = Undefined /\
  Info.FromProto Sample.debug
    (Sample.join_of JOIN_TYPE_INNER (call "equal" [Sample.key 0])) = Undefined /\
  Info.FromProto Sample.debug
    (Sample.join_of JOIN_TYPE_INNER (call "is_not_distinct_from" [])) = Undefined /\
  raises Invalid
    (Info.FromProto Sample.debug
       (Sample.join_of JOIN_TYPE_INNER (call "add" [Sample.key 0]))).
Proof.
  repeat split; try reflexivity. eexists; reflexivity.
Qed.

(** The JoinPlanBasic plan: 3 + 3 columns. *)
Lemma join_num_columns_witness :
  exists d,
    Info.FromProto Sample.debug
      (Sample.join_of JOIN_TYPE_INNER
         (call "equal" [Sample.key 0; Sample.key 5])) = Ok d /\
    inputs (declaration d) =
      [declaration Sample.info_abc; declaration Sample.info_xya] /\
    num_columns d = 3 + 3.
Proof.
  eassert (Hd : Info.FromProto Sample.debug
                  (Sample.join_of JOIN_TYPE_INNER
                     (call "equal" [Sample.key 0; Sample.key 5])) = Ok _)
    by reflexivity.
  destruct (join_num_columns _ _ _ _ _ _ _ Hd)
    as (l & r & L & R & Hl & Hr & HL & HR & Hin & Hn).
  injection Hl as <-. injection Hr as <-.
  rewrite Sample_scan_abc in HL. rewrite Sample_scan_xya in HR.
  injection HL as <-. injection HR as <-.
  eexists. split; [exact Hd |]. split; assumption.
Defined.

(** ** Filter and project *)

Section FilterProject.

Context (E : Collaborators).
Variable DebugString : Rel E -> string.

(** A declaration with a single input. *)
Lemma Sequence_pair_Ok_inv (input d s : Declaration E) :
  inputs d = [] ->
  Sequence [input; d] = Ok s ->
  factory_name s = factory_name d /\ options s = options d /\
  inputs s = [input].
Proof.
  intros Hin H. rewrite Sequence_pair in H. injection H as <-.
  destruct d as [n ins o]. simpl in *. subst ins. repeat split.
Qed.



Lemma Decl_project_Ok_inv c input exprs adv (d : Declaration E) :
  Decl.FromProto DebugString (RelProject c input exprs adv) = Ok d ->
  exists i L own,
    input = Some i /\
    CheckRelCommon c adv = Ok tt /\
    Decl.FromProto DebugString i = Ok L /\
    for_each (FromProto_Expression E) exprs = Ok own /\
    Sequence [L; Declaration_make "project" (ProjectNodeOptions own)] = Ok d.
Proof.
  intros H. simpl in H. inv_bind H. destruct v.
  destruct input as [i |]; [| discriminate].
  inv_bind H. rename v into L.
  inv_bind H. rename v into own.
  exists i, L, own. repeat split; assumption.
Qed.

Lemma Info_project_Ok_inv c input exprs adv (d : DeclarationInfo E) :
  Info.FromProto DebugString (RelProject c input exprs adv) = Ok d ->
  exists i L own capacity,
    input = Some i /\
    CheckRelCommon c adv = Ok tt /\
    Info.FromProto DebugString i = Ok L /\
    int_add (num_columns L) (size exprs) = Ok capacity /\
    0 <= capacity /\
    for_each (FromProto_Expression E) exprs = Ok own /\
    Sequence [declaration L;
              Declaration_make "project"
                (ProjectNodeOptions (Info.column_refs E (num_columns L) ++ own))]
    = Ok (declaration d) /\
    num_columns d =
      static_cast_int (size (Info.column_refs E (num_columns L) ++ own)).
Proof.
  intros H. simpl in H. inv_bind H. destruct v.
  destruct input as [i |]; [| discriminate].
  inv_bind H. rename v into L.
  inv_bind H. rename v into capacity.
  inv_bind H. destruct v.
  inv_bind H. rename v into own.
  injection H as <-.
  exists i, L, own, capacity. simpl. repeat split; try assumption.
  unfold Info.reserve in Hv2.
  destruct (capacity <? 0) eqn:Hneg; [discriminate |].
  now apply Z.ltb_ge in Hneg.
Qed.


End FilterProject.



(** ** Missing parts of a relation *)

Section MissingParts.

Context (E : Collaborators).
Variable DebugString : Rel E -> string.


End MissingParts.



(** ** Columns of a projection *)

Lemma static_cast_int_in_range (n : Z) :
  0 <= n <= INT_MAX -> static_cast_int n = n.
Proof.
  intros [H0 H1]. unfold static_cast_int, INT_MAX in *.
  rewrite Z.mod_small by lia.
  destruct (n <=? 2147483647) eqn:Hle; [reflexivity |].
  apply Z.leb_gt in Hle. lia.
Qed.

Lemma int_add_Ok_range (a b n : Z) :
  int_add a b = Ok n -> n = a + b /\ INT_MIN <= n <= INT_MAX.
Proof.
  unfold int_add.
  destruct ((INT_MIN <=? a + b) && (a + b <=? INT_MAX)) eqn:Hr; [| discriminate].
  intros H; injection H as <-.
  apply andb_true_iff in Hr as [Hlo Hhi].
  apply Z.leb_le in Hlo, Hhi. lia.
Qed.

Section ProjectColumns.

Context (E : Collaborators).
Variable DebugString : Rel E -> string.

Lemma column_refs_length (n : Z) :
  length (Info.column_refs E n) = Z.to_nat n.
Proof. unfold Info.column_refs. now rewrite length_map, length_seq. Qed.

Lemma column_refs_nth (n : Z) (k : nat) :
  (k < Z.to_nat n)%nat ->
  nth_error (Info.column_refs E n) k = Some (field_ref (FieldPath [Z.of_nat k])).
Proof.
  intros Hk. unfold Info.column_refs.
  rewrite nth_error_map, nth_error_seq.
  destruct (Nat.ltb_spec k (Z.to_nat n)) as [_ | Hge]; [reflexivity | lia].
Qed.

(** C8.  A translated ProjectRel is a "project" declaration whose
    expression list starts with one field reference per column of its
    input, references 0 to n-1 in this order for an input declared with n
    columns, and goes on with the translations of the ProjectRel's own
    expressions in their order; the declared column count is the length of
    that list as an [int], which for an input with a non-negative column
    count is that count plus the number of own expressions. *)
Theorem project_appends_columns c input exprs adv (d : DeclarationInfo E) :
  Info.FromProto DebugString (RelProject c input exprs adv) = Ok d ->
  exists i L es,
    input = Some i /\
    Info.FromProto DebugString i = Ok L /\
    Sequence [declaration L;
              Declaration_make "project" (ProjectNodeOptions es)]
    = Ok (declaration d) /\
    factory_name (declaration d) = "project" /\
    project_expressions (declaration d) = Some es /\
    (forall k, (k < Z.to_nat (num_columns L))%nat ->
       nth_error es k = Some (field_ref (FieldPath [Z.of_nat k]))) /\
    (forall j se, nth_error exprs j = Some se ->
       exists ex, FromProto_Expression E se = Ok ex /\
                  nth_error es (Z.to_nat (num_columns L) + j) = Some ex) /\
    length es = (Z.to_nat (num_columns L) + length exprs)%nat /\
    num_columns d = static_cast_int (size es) /\
    (0 <= num_columns L -> num_columns d = num_columns L + size exprs).
Proof.
  intros H. apply Info_project_Ok_inv in H.
  destruct H as (i & L & own & cap & -> & _ & HL & Hcap & Hpos & Hown & Hs & Hn).
  pose proof Hs as Hs'.
  apply Sequence_pair_Ok_inv in Hs' as (Hname & Hopt & _); [| reflexivity].
  pose proof (for_each_length _ _ Hown) as Hlen.
  exists i, L, (Info.column_refs E (num_columns L) ++ own).
  split; [reflexivity |]. split; [assumption |]. split; [assumption |].
  split; [assumption |].
  split; [unfold project_expressions; now rewrite Hopt |].
  split; [| split; [| split; [| split]]].
  - intros k Hk. rewrite nth_error_app1 by (now rewrite column_refs_length).
    now apply column_refs_nth.
  - intros j se Hj.
    destruct (for_each_nth _ _ Hown _ Hj) as (ex & Hex & Hse).
    exists ex. split; [assumption |].
    rewrite nth_error_app2 by (rewrite column_refs_length; lia).
    rewrite column_refs_length.
    replace (Z.to_nat (num_columns L) + j - Z.to_nat (num_columns L))%nat
      with j by lia.
    assumption.
  - rewrite length_app, column_refs_length. lia.
  - exact Hn.
  - intros Hnn. rewrite Hn.
    apply int_add_Ok_range in Hcap as [-> Hrange].
    unfold size in *. rewrite length_app, column_refs_length, Hlen.
    rewrite static_cast_int_in_range; lia.
Qed.

End ProjectColumns.

(** [field 0 + field 1] projected over the three columns A, B, C: four
    expressions, the references to columns 0, 1, 2 first. *)
Lemma project_appends_columns_witness :
  exists d es,
    Info.FromProto Sample.debug
      (RelProject None (Some Sample.scan_abc)
                  [call "add" [Sample.key 0; Sample.key 1]] false) = Ok d /\
    project_expressions (declaration d) = Some es /\
    nth_error es 0 = Some (Sample.key 0) /\
    nth_error es 1 = Some (Sample.key 1) /\
    nth_error es 2 = Some (Sample.key 2) /\
    nth_error es 3 = Some (call "add" [Sample.key 0; Sample.key 1]) /\
    length es = 4%nat /\
    num_columns d = 3 + 1.
Proof.
  eassert (Hd : Info.FromProto Sample.debug
                  (RelProject None (Some Sample.scan_abc)
                     [call "add" [Sample.key 0; Sample.key 1]] false) = Ok _)
    by reflexivity.
  destruct (project_appends_columns _ _ _ _ _ Hd)
    as (i & L & es & Hi & HL & _ & _ & Hes & Hpre & Hown & Hlen & _ & Hn).
  injection Hi as <-. rewrite Sample_scan_abc in HL. injection HL as <-.
  eexists _, es. split; [exact Hd |]. split; [exact Hes |].
  split; [exact (Hpre 0%nat ltac:(simpl; lia)) |].
  split; [exact (Hpre 1%nat ltac:(simpl; lia)) |].
  split; [exact (Hpre 2%nat ltac:(simpl; lia)) |].
  split.
  { destruct (Hown 0%nat _ eq_refl) as (ex & Hex & Hnth).
    injection Hex as <-. exact Hnth. }
  split; [exact Hlen |].
  exact (Hn ltac:(simpl; lia)).
Defined.

(** ** Files of a scan *)

Section ScanFiles.

Context (E : Collaborators).

(** What the [uri_path] branch does with a directory: the listing of the
    directory does not reach [files]; [files] is left moved-from and the
    item then goes through the glob branch. *)
Lemma collect_item_uri_path_directory item p full_path files info discovered globbed :
  path_type item = kUriPath p ->
  GetFileInfo E (substr full_path 7) = Ok info ->
  FileInfo_type E info = Directory ->
  GetFileInfo_selector E (mkFileSelector (substr full_path 7) true) = Ok discovered ->
  GlobFiles E (substr full_path 7) = Ok globbed ->
  collect_item E item full_path files =
  Ok (map (FileInfo_moved_from E) files ++ globbed).
Proof.
  intros Hp Hi Ht Hd Hg. unfold collect_item.
  rewrite Hp, Hi. simpl. rewrite Ht, Hd. simpl. rewrite Hg. reflexivity.
Qed.

(** The [uri_folder] branch appends the listing to [files]. *)
Lemma collect_item_uri_folder item p full_path files discovered :
  path_type item = kUriFolder p ->
  GetFileInfo_selector E (mkFileSelector (substr full_path 7) true) = Ok discovered ->
  collect_item E item full_path files = Ok (files ++ discovered).
Proof.
  intros Hp Hd. unfold collect_item. rewrite Hp. simpl. rewrite Hd. reflexivity.
Qed.

End ScanFiles.

(** C9.  A ReadRel with the items [uri_file file:///tmp/dat1.parquet] and
    [uri_path file:///data], where /data is a directory holding a.parquet
    and sub/b.parquet, in both revisions: the dataset of the "scan"
    declaration holds neither file of the directory, and the entry of the
    first item has been moved from; the same directory given as
    [uri_folder] contributes both files after the first item's entry. *)
Theorem uri_path_directory_listing_dropped :
  let first := Sample.parquet_item (kUriFile "file:///tmp/dat1.parquet") in
  let as_path := Sample.read_of ["A"] [first; Sample.parquet_item (kUriPath "file:///data")] in
  let as_folder := Sample.read_of ["A"] [first; Sample.parquet_item (kUriFolder "file:///data")] in
  let scan files :=
    mkDeclaration "scan" []
      (@ScanNodeOptions Sample.env
         (Sample.mkDataset files (Some ParquetFileFormat) ["A"])
         (mkScanOptions None true)) in
  let a := Sample.mkFileInfo "/data/a.parquet" File in
  let b := Sample.mkFileInfo "/data/sub/b.parquet" File in
  GetFileInfo Sample.env "/data" = Ok (Sample.mkFileInfo "/data" Directory) /\
  GetFileInfo_selector Sample.env (mkFileSelector "/data" true) = Ok [a; b] /\
  Decl.FromProto Sample.debug as_path =
    Ok (scan [Sample.mkFileInfo "" File; Sample.mkFileInfo "/data" Directory]) /\
  Info.FromProto Sample.debug as_path =
    Ok (mkDeclarationInfo
          (scan [Sample.mkFileInfo "" File; Sample.mkFileInfo "/data" Directory]) 1) /\
  Info.FromProto Sample.debug as_folder =
    Ok (mkDeclarationInfo
          (scan [Sample.mkFileInfo "/tmp/dat1.parquet" File; a; b]) 1).
Proof.
  repeat split; reflexivity.
Qed.

(** ** Error propagation *)

Module ExecPlanFacts.
Import ExecPlan.
Local Open Scope nat_scope.




End ExecPlanFacts.





(** * Further properties of the translation *)

(** ** The common check comes first *)

Lemma CheckRelCommon_refuses (c : option RelCommon) (adv : bool) :
  carries_unsupported_extension c adv = true ->
  exists msg, CheckRelCommon c adv = Raise (mkStatus NotImplemented msg).
Proof.
  destruct c as [[[|] [|] [|]] | ]; destruct adv; cbn; intros H;
    try discriminate; eexists; reflexivity.
Qed.

Lemma CheckRelCommon_passes (c : option RelCommon) (adv : bool) :
  carries_unsupported_extension c adv = false -> CheckRelCommon c adv = Ok tt.
Proof.
  destruct c as [[[|] [|] [|]] | ]; destruct adv; cbn; intros H;
    try discriminate; reflexivity.
Qed.

Section CommonCheck.

Context (E : Collaborators).
Variable DebugString : Rel E -> string.

(** X1.  A relation that carries an emit, a hint or an advanced extension
    (in its RelCommon or of its own) is refused with one and the same
    NotImplemented status whatever else it contains, by both revisions for
    read, filter, project and join and by the later one for aggregate; a
    relation that carries none passes the check. *)
Theorem unsupported_extension_refused (c : option RelCommon) (adv : bool) :
  (carries_unsupported_extension c adv = true ->
   exists st, code st = NotImplemented /\
     (forall read,
        read_common read = c -> read_has_advanced_extension read = adv ->
        Decl.FromProto DebugString (RelRead read) = Raise st /\
        Info.FromProto DebugString (RelRead read) = Raise st) /\
     (forall input condition,
        Decl.FromProto DebugString (RelFilter c input condition adv) = Raise st /\
        Info.FromProto DebugString (RelFilter c input condition adv) = Raise st) /\
     (forall input exprs,
        Decl.FromProto DebugString (RelProject c input exprs adv) = Raise st /\
        Info.FromProto DebugString (RelProject c input exprs adv) = Raise st) /\
     (forall jl jr e t,
        Decl.FromProto DebugString (RelJoin c jl jr e t adv) = Raise st /\
        Info.FromProto DebugString (RelJoin c jl jr e t adv) = Raise st) /\
     (forall input groupings measures,
        Info.FromProto DebugString (RelAggregate c input groupings measures adv)
        = Raise st)) /\
  (carries_unsupported_extension c adv = false -> CheckRelCommon c adv = Ok tt).
Proof.
  split; [| apply CheckRelCommon_passes].
  intros H. destruct (CheckRelCommon_refuses c adv H) as [msg Hc].
  exists (mkStatus NotImplemented msg). split; [reflexivity |].
  split; [| split; [| split; [| split]]].
  - intros read <- <-. split; simpl; unfold read_case; rewrite Hc; reflexivity.
  - intros. split; simpl; rewrite Hc; reflexivity.
  - intros. split; simpl; rewrite Hc; reflexivity.
  - intros. split; simpl; rewrite Hc; reflexivity.
  - intros. simpl; rewrite Hc; reflexivity.
Qed.

End CommonCheck.

(** A filter with a hint over the first sample scan. *)
Lemma unsupported_extension_refused_witness :
  exists st, code st = NotImplemented /\
    Info.FromProto Sample.debug
      (RelFilter (Some (mkRelCommon false true false)) (Some Sample.scan_abc)
                 None false) = Raise st.
Proof.
  destruct (unsupported_extension_refused Sample.debug
              (Some (mkRelCommon false true false)) false)
    as [Hrefused _].
  destruct (Hrefused eq_refl) as (st & Hcode & _ & Hfilter & _).
  exists st. split; [exact Hcode |].
  exact (proj2 (Hfilter (Some Sample.scan_abc) None)).
Defined.

(** ** The read case *)

Lemma check_item_Ok_inv (item : FileOrFiles) (path : string) :
  check_item item path = Ok tt ->
  starts_with path "file:///" = true /\
  partition_index item = 0 /\ start item = 0 /\ length_ item = 0.
Proof.
  unfold check_item.
  destruct (starts_with path "file:///"); simpl; [| discriminate].
  destruct (Z.eqb_spec (partition_index item) 0) as [-> | _]; simpl;
    [| discriminate].
  destruct (Z.eqb_spec (start item) 0) as [-> | _]; simpl; [| discriminate].
  destruct (Z.eqb_spec (length_ item) 0) as [-> | _]; simpl; [| discriminate].
  intros _. repeat split.
Qed.

Lemma check_item_plain (item : FileOrFiles) :
  plain_local_item item -> check_item item (item_path item) = Ok tt.
Proof.
  intros (Hs & Hp & Hst & Hl). unfold check_item.
  rewrite Hs, Hp, Hst, Hl. reflexivity.
Qed.

Lemma for_state_Ok_Forall A S (body : S -> A -> Result S) (xs : list A) :
  forall s s', for_state body xs s = Ok s' ->
               Forall (fun x => exists s1 s2, body s1 x = Ok s2) xs.
Proof.
  induction xs as [| x xs IH]; intros s s' H; [constructor |].
  simpl in H. inv_bind H. constructor; eauto.
Qed.

Lemma for_state_app A S (body : S -> A -> Result S) (xs ys : list A) (s : S) :
  for_state body (xs ++ ys) s = (s' <- for_state body xs s ;; for_state body ys s').
Proof.
  revert s; induction xs as [| x xs IH]; intros s; simpl; [reflexivity |].
  destruct (body s x) as [s1 | st |]; simpl; auto.
Qed.

Section ReadCaseFacts.

Context (E : Collaborators).
Variable detect_format : FileOrFiles -> string -> Result FileFormat.

Lemma read_item_Ok_inv st item st' :
  read_item E detect_format st item = Ok st' ->
  exists f,
    detect_format item (item_path item) = Ok f /\
    plain_local_item item /\
    collect_item E item (item_path item) (snd st) = Ok (snd st') /\
    fst st' = Some f.
Proof.
  unfold read_item. intros H.
  inv_bind H. rename v into f. inv_bind H. destruct v.
  inv_bind H. injection H as <-.
  exists f. repeat split; try assumption; apply check_item_Ok_inv in Hv0;
    tauto.
Qed.

Lemma read_case_Ok_inv (read : ReadRel E) d schema :
  read_case detect_format read = Ok (d, schema) ->
  exists filter lf format files factory ds,
    CheckRelCommon (read_common read) (read_has_advanced_extension read) = Ok tt /\
    FromProto_NamedStruct E (base_schema read) = Ok schema /\
    ((read_filter read = None /\ filter = None) \/
     (exists f e, read_filter read = Some f /\
                  FromProto_Expression E f = Ok e /\ filter = Some e)) /\
    has_projection read = false /\
    local_files read = Some lf /\
    local_files_has_advanced_extension lf = false /\
    for_state (read_item E detect_format) (items lf) (None, []) = Ok (format, files) /\
    FileSystemDatasetFactory_Make E files format = Ok factory /\
    DatasetFactory_Finish E factory schema = Ok ds /\
    d = mkDeclaration "scan" [] (ScanNodeOptions ds (mkScanOptions filter true)).
Proof.
  unfold read_case. intros H.
  inv_bind H. destruct v.
  inv_bind H. rename v into schema'.
  inv_bind H. rename v into filter.
  destruct (has_projection read) eqn:Hproj; [discriminate |].
  destruct (local_files read) as [lf |] eqn:Hlf; [| discriminate].
  destruct (local_files_has_advanced_extension lf) eqn:Hadv; [discriminate |].
  inv_bind H. destruct v as [format files].
  inv_bind H. rename v into factory.
  inv_bind H. rename v into ds.
  injection H as <- <-.
  exists filter, lf, format, files, factory, ds.
  repeat split; try assumption.
  destruct (read_filter read) as [f |].
  - right. inv_bind Hv1. injection Hv1 as <-. eauto.
  - left. injection Hv1 as <-. split; reflexivity.
Qed.

(** The format handed to the dataset factory is that of the last item. *)
Lemma for_state_read_item_format items :
  forall st format files,
    for_state (read_item E detect_format) items st = Ok (format, files) ->
    match last_item items with
    | None => format = fst st
    | Some item =>
        exists f, detect_format item (item_path item) = Ok f /\ format = Some f
    end.
Proof.
  induction items as [| item items IH] using rev_ind; intros st format files H.
  - simpl in H. injection H as ->. reflexivity.
  - rewrite for_state_app in H. inv_bind H. simpl in H.
    inv_bind H. injection H as ->.
    apply read_item_Ok_inv in Hv0 as (f & Hf & _ & _ & Hfst).
    unfold last_item. rewrite rev_app_distr. simpl.
    exists f. split; [exact Hf |]. exact Hfst.
Qed.

(** Items given as [uri_file] are entered as they come, without a look at
    the filesystem. *)
Lemma for_state_read_item_uri_files items :
  Forall (fun item => exists p, path_type item = kUriFile p) items ->
  forall st format files,
    for_state (read_item E detect_format) items st = Ok (format, files) ->
    files = snd st ++
            map (fun item => FileInfo_make E (substr (item_path item) 7) File) items.
Proof.
  induction 1 as [| item items [p Hp] _ IH]; intros st format files H.
  - simpl in H. injection H as ->. simpl. now rewrite app_nil_r.
  - simpl in H. inv_bind H.
    apply IH in H. subst files.
    apply read_item_Ok_inv in Hv as (f & _ & _ & Hc & _).
    unfold collect_item in Hc. rewrite Hp in Hc. simpl in Hc.
    injection Hc as <-. simpl. now rewrite <- app_assoc.
Qed.

End ReadCaseFacts.

Lemma Decl_detect_format_Ok_inv (item : FileOrFiles) (path : string) f :
  Decl.detect_format item path = Ok f ->
  (format item = FILE_FORMAT_PARQUET /\ f = ParquetFileFormat) \/
  (format item <> FILE_FORMAT_PARQUET /\ f = IpcFileFormat /\
   (ends_with path ".arrow" = true \/ ends_with path ".feather" = true)).
Proof.
  unfold Decl.detect_format. destruct (format item).
  - destruct (ends_with path ".arrow") eqn:Ha.
    + intros [= <-]. right. repeat split; [discriminate | now left].
    + destruct (ends_with path ".feather") eqn:Hf; [| discriminate].
      intros [= <-]. right. repeat split; [discriminate | now right].
  - intros [= <-]. left. split; reflexivity.
Qed.

Lemma Info_detect_format_Ok_inv (item : FileOrFiles) (path : string) f :
  Info.detect_format item path = Ok f ->
  (file_format item = kParquet /\ f = ParquetFileFormat) \/
  (file_format item = kArrow /\ f = IpcFileFormat).
Proof.
  unfold Info.detect_format. destruct (file_format item); try discriminate;
    intros [= <-]; [left | right]; split; reflexivity.
Qed.

Section ReadShape.

Context (E : Collaborators).
Variable DebugString : Rel E -> string.

Lemma read_items_accepted detect_format items st st' :
  for_state (read_item E detect_format) items st = Ok st' ->
  Forall (fun item => plain_local_item item /\
                      exists f, detect_format item (item_path item) = Ok f)
         items.
Proof.
  intros H. apply for_state_Ok_Forall in H.
  eapply Forall_impl; [| exact H].
  intros item (s1 & s2 & Hitem).
  apply read_item_Ok_inv in Hitem as (f & Hf & Hplain & _).
  split; [exact Hplain | exists f; exact Hf].
Qed.

(** X2.  A ReadRel is translated only if it has no projection, reads local
    files without advanced extension, and every item names a "file:///" URI
    with partition index, start and length left at 0 and a format the
    revision knows: in the older revision FILE_FORMAT_PARQUET or a path
    ending in ".arrow" or ".feather", in the later one the parquet or the
    arrow read options. *)
Theorem read_accepted_shape (read : ReadRel E) :
  (forall d, Decl.FromProto DebugString (RelRead read) = Ok d ->
     has_projection read = false /\
     exists lf,
       local_files read = Some lf /\
       local_files_has_advanced_extension lf = false /\
       Forall (fun item =>
                 plain_local_item item /\
                 (format item = FILE_FORMAT_PARQUET \/
                  ends_with (item_path item) ".arrow" = true \/
                  ends_with (item_path item) ".feather" = true))
              (items lf)) /\
  (forall d, Info.FromProto DebugString (RelRead read) = Ok d ->
     has_projection read = false /\
     exists lf,
       local_files read = Some lf /\
       local_files_has_advanced_extension lf = false /\
       Forall (fun item =>
                 plain_local_item item /\
                 (file_format item = kParquet \/ file_format item = kArrow))
              (items lf)).
Proof.
  split; intros d H; simpl in H; inv_bind H; destruct v as [d' schema];
    apply read_case_Ok_inv in Hv;
    destruct Hv as (filter & lf & fmt & files & factory & ds &
                    _ & _ & _ & Hproj & Hlf & Hadv & Hloop & _);
    (split; [exact Hproj |]); exists lf; (split; [exact Hlf |]);
    (split; [exact Hadv |]);
    apply read_items_accepted in Hloop;
    (eapply Forall_impl; [| exact Hloop]);
    intros item (Hplain & f & Hf); (split; [exact Hplain |]).
  - apply Decl_detect_format_Ok_inv in Hf as [[Hp _] | (_ & _ & [Ha | Hfe])];
      auto.
  - apply Info_detect_format_Ok_inv in Hf as [[Hp _] | [Ha _]]; auto.
Qed.

Lemma read_case_translated_scan detect_format (read : ReadRel E) d schema :
  read_case detect_format read = Ok (d, schema) ->
  translated_scan detect_format read d /\
  FromProto_NamedStruct E (base_schema read) = Ok schema.
Proof.
  intros H. apply read_case_Ok_inv in H.
  destruct H as (filter & lf & fmt & files & factory & ds &
                 _ & Hschema & Hfilter & _ & Hlf & _ & Hloop & Hmake & Hfin & ->).
  split; [| exact Hschema].
  exists schema, filter, lf, fmt, files, factory, ds.
  split; [exact Hschema |]. split.
  { destruct Hfilter as [[-> ->] | (f & e & -> & He & ->)]; eauto. }
  split; [exact Hlf |]. split.
  { apply for_state_read_item_format in Hloop. exact Hloop. }
  split.
  { intros Hall.
    eapply for_state_read_item_uri_files in Hloop; [| exact Hall].
    exact Hloop. }
  repeat split; assumption.
Qed.

(** X3.  A translated ReadRel is a "scan" declaration without inputs and
    with [use_threads] set, whose scan filter is the translated ReadRel
    filter (none when the ReadRel has none), over the dataset the factory
    builds from the translated base schema, the format of the last item (no
    format when there are no items) and the collected files; when every
    item is a [uri_file] the files are one File entry per item, in item
    order, each the URI without its leading "file://".  The later revision
    declares as column count the number of fields of the translated schema,
    as an [int]. *)
Theorem scan_declaration_contents (read : ReadRel E) :
  (forall d, Decl.FromProto DebugString (RelRead read) = Ok d ->
     translated_scan Decl.detect_format read d) /\
  (forall d, Info.FromProto DebugString (RelRead read) = Ok d ->
     translated_scan Info.detect_format read (declaration d) /\
     exists schema,
       FromProto_NamedStruct E (base_schema read) = Ok schema /\
       num_columns d = static_cast_int (size schema)).
Proof.
  split; intros d H; simpl in H; inv_bind H; destruct v as [d' schema];
    injection H as <-; apply read_case_translated_scan in Hv as [Hscan Hschema].
  - exact Hscan.
  - split; [exact Hscan |]. exists schema. split; [exact Hschema | reflexivity].
Qed.

End ReadShape.

(** The first scan of the join tests. *)
Lemma read_accepted_shape_witness :
  Forall (fun item => plain_local_item item /\
                      (file_format item = kParquet \/ file_format item = kArrow))
         [Sample.parquet_item (kUriFile "file:///tmp/dat1.parquet")].
Proof.
  destruct (read_accepted_shape Sample.debug
              (mkReadRel Sample.env None ["A"; "B"; "C"] None false
                 (Some (mkLocalFiles
                          [Sample.parquet_item (kUriFile "file:///tmp/dat1.parquet")]
                          false)) false)) as [_ Hinfo].
  destruct (Hinfo _ Sample_scan_abc) as (_ & lf & Hlf & _ & Hall).
  injection Hlf as <-. exact Hall.
Defined.

Lemma scan_declaration_contents_witness :
  translated_scan Info.detect_format
    (mkReadRel Sample.env None ["A"; "B"; "C"] None false
       (Some (mkLocalFiles
                [Sample.parquet_item (kUriFile "file:///tmp/dat1.parquet")]
                false)) false)
    (declaration Sample.info_abc) /\
  num_columns Sample.info_abc = 3.
Proof.
  destruct (scan_declaration_contents Sample.debug
              (mkReadRel Sample.env None ["A"; "B"; "C"] None false
                 (Some (mkLocalFiles
                          [Sample.parquet_item (kUriFile "file:///tmp/dat1.parquet")]
                          false)) false)) as [_ Hinfo].
  destruct (Hinfo _ Sample_scan_abc) as [Hscan _].
  split; [exact Hscan | reflexivity].
Defined.

(** ** Failures of input relations *)

Section InputFailures.

Context (E : Collaborators).
Variable DebugString : Rel E -> string.

Lemma bind_failed A B (r : Result A) (k : A -> Result B) :
  (forall a, r <> Ok a) ->
  (r = Undefined /\ bind r k = Undefined) \/
  (exists st, r = Raise st /\ bind r k = Raise st).
Proof.
  destruct r as [a | st |]; intros H.
  - now destruct (H a).
  - right. exists st. split; reflexivity.
  - left. split; reflexivity.
Qed.

(** X4.  Once the common check of the enclosing relation has passed, a
    failure in translating an input relation is the result of translating
    the enclosing relation, unchanged: for the input of a filter, a project
    or (later revision) an aggregate, for the left input of a join of
    supported type with both inputs present, and for its right input when
    the left one translates. *)
Theorem input_failure_returned (c : option RelCommon) (adv : bool) :
  CheckRelCommon c adv = Ok tt ->
  (forall i,
     (forall d, Decl.FromProto DebugString i <> Ok d) ->
     (forall condition,
        Decl.FromProto DebugString (RelFilter c (Some i) condition adv)
        = Decl.FromProto DebugString i) /\
     (forall exprs,
        Decl.FromProto DebugString (RelProject c (Some i) exprs adv)
        = Decl.FromProto DebugString i) /\
     (forall r e t jt, join_type_switch t = Ok jt ->
        Decl.FromProto DebugString (RelJoin c (Some i) (Some r) e t adv)
        = Decl.FromProto DebugString i) /\
     (forall l L e t jt, join_type_switch t = Ok jt ->
        Decl.FromProto DebugString l = Ok L ->
        Decl.FromProto DebugString (RelJoin c (Some l) (Some i) e t adv)
        = Decl.FromProto DebugString i)) /\
  (forall i,
     (forall d, Info.FromProto DebugString i <> Ok d) ->
     (forall condition,
        Info.FromProto DebugString (RelFilter c (Some i) condition adv)
        = Info.FromProto DebugString i) /\
     (forall exprs,
        Info.FromProto DebugString (RelProject c (Some i) exprs adv)
        = Info.FromProto DebugString i) /\
     (forall groupings measures,
        Info.FromProto DebugString (RelAggregate c (Some i) groupings measures adv)
        = Info.FromProto DebugString i) /\
     (forall r e t jt, join_type_switch t = Ok jt ->
        Info.FromProto DebugString (RelJoin c (Some i) (Some r) e t adv)
        = Info.FromProto DebugString i) /\
     (forall l L e t jt, join_type_switch t = Ok jt ->
        Info.FromProto DebugString l = Ok L ->
        Info.FromProto DebugString (RelJoin c (Some l) (Some i) e t adv)
        = Info.FromProto DebugString i)).
Proof.
  intros Hc. split; intros i Hfail.
  - assert (Hi : Decl.FromProto DebugString i = Undefined \/
                 exists st, Decl.FromProto DebugString i = Raise st).
    { destruct (Decl.FromProto DebugString i) as [d | st |];
        [now destruct (Hfail d) | right; eauto | left; reflexivity]. }
    repeat split; intros; simpl; rewrite Hc; simpl;
      try (match goal with H : join_type_switch _ = Ok _ |- _ => rewrite H end;
           simpl);
      try (match goal with H : Decl.FromProto _ _ = Ok _ |- _ => rewrite H end;
           simpl);
      destruct Hi as [Hi | [st Hi]]; rewrite Hi; reflexivity.
  - assert (Hi : Info.FromProto DebugString i = Undefined \/
                 exists st, Info.FromProto DebugString i = Raise st).
    { destruct (Info.FromProto DebugString i) as [d | st |];
        [now destruct (Hfail d) | right; eauto | left; reflexivity]. }
    repeat split; intros; simpl; rewrite Hc; simpl;
      try (match goal with H : join_type_switch _ = Ok _ |- _ => rewrite H end;
           simpl);
      try (match goal with H : Info.FromProto _ _ = Ok _ |- _ => rewrite H end;
           simpl);
      destruct Hi as [Hi | [st Hi]]; rewrite Hi; reflexivity.
Qed.

End InputFailures.

(** A filter over a read of an s3 URI: the read's NotImplemented is the
    filter's result. *)
Lemma input_failure_returned_witness :
  let remote :=
    Sample.read_of ["A"]
      [Sample.parquet_item (kUriFile "s3://bucket/dat1.parquet")] in
  raises NotImplemented (Info.FromProto Sample.debug remote) /\
  Info.FromProto Sample.debug
    (RelFilter None (Some remote) (Some (literal 1)) false)
  = Info.FromProto Sample.debug remote.
Proof.
  intros remote.
  assert (Hr : raises NotImplemented (Info.FromProto Sample.debug remote))
    by (eexists; reflexivity).
  split; [exact Hr |].
  destruct (input_failure_returned Sample.debug None false eq_refl) as [_ Hinfo].
  assert (Hfail : forall d, Info.FromProto Sample.debug remote <> Ok d).
  { destruct Hr as [msg Hr]. intros d. rewrite Hr. discriminate. }
  destruct (Hinfo remote Hfail) as (Hfilter & _).
  exact (Hfilter (Some (literal 1))).
Defined.

(** ** The aggregate case *)

Lemma for_each_first_failure A B (f : A -> Result B) (pre post : list A)
      (x : A) (ys : list B) (st : Status) :
  for_each f pre = Ok ys -> f x = Raise st ->
  for_each f (pre ++ x :: post) = Raise st.
Proof.
  revert ys; induction pre as [| p pre IH]; simpl; intros ys Hpre Hx.
  - rewrite Hx. reflexivity.
  - inv_bind Hpre. inv_bind Hpre. rewrite Hv. simpl.
    erewrite IH by eassumption. reflexivity.
Qed.

Section AggregateCase.

Context (E : Collaborators).
Variable DebugString : Rel E -> string.

Lemma measure_aggregate_Ok_inv (m : Measure E) (a : Aggregate) :
  Info.measure_aggregate m = Ok a ->
  exists f arg name target,
    measure m = Some f /\ measure_filter m = None /\
    arguments f = [arg] /\
    DecodeFunction E (function_reference f) = Ok name /\
    FromProto_Expression E arg = Ok (field_ref target) /\
    a = mkAggregate name target "".
Proof.
  unfold Info.measure_aggregate.
  destruct (measure m) as [f |]; [| discriminate].
  destruct (measure_filter m); [discriminate |].
  destruct (size (arguments f) =? 1) eqn:Hsize; simpl; [| discriminate].
  intros H. inv_bind H. rename v into name.
  inv_bind H. rename v into arg. inv_bind H. rename v into ex.
  destruct ex as [? | target | ? ?]; simpl in H; try discriminate.
  injection H as <-.
  apply Z.eqb_eq in Hsize. unfold size in Hsize.
  destruct (arguments f) as [| a0 [| a1 rest]] eqn:Hargs;
    simpl in Hsize; try lia.
  unfold index in Hv0. simpl in Hv0. injection Hv0 as <-.
  exists f, a0, name, target. repeat split; assumption.
Qed.

Lemma grouping_key_Ok_inv (e : substrait_Expression E) (ref : FieldRef) :
  Info.grouping_key E e = Ok ref -> FromProto_Expression E e = Ok (field_ref ref).
Proof.
  unfold Info.grouping_key. intros H. inv_bind H.
  destruct v as [? | r | ? ?]; simpl in H; try discriminate.
  injection H as <-. exact Hv.
Qed.

Lemma Info_aggregate_Ok_inv c input groupings measures adv (d : DeclarationInfo E) :
  Info.FromProto DebugString (RelAggregate c input groupings measures adv) = Ok d ->
  exists i L group keys aggregates,
    input = Some i /\
    CheckRelCommon c adv = Ok tt /\
    Info.FromProto DebugString i = Ok L /\
    groupings = [group] /\
    for_each (Info.grouping_key E) group = Ok keys /\
    for_each (@Info.measure_aggregate E) measures = Ok aggregates /\
    declaration d =
      mkDeclaration "aggregate" [declaration L]
                    (AggregateNodeOptions aggregates keys) /\
    num_columns d = static_cast_int (size aggregates).
Proof.
  intros H. simpl in H. inv_bind H. destruct v.
  destruct input as [i |]; [| discriminate].
  inv_bind H. rename v into L.
  destruct (size groupings >? 1) eqn:Hsize; [discriminate |].
  inv_bind H. rename v into group.
  inv_bind H. rename v into keys.
  inv_bind H. rename v into aggregates.
  injection H as <-.
  exists i, L, group, keys, aggregates. simpl.
  repeat split; try assumption.
  rewrite Z.gtb_ltb in Hsize. apply Z.ltb_ge in Hsize.
  unfold size in Hsize. unfold index in Hv1.
  destruct groupings as [| g [| g' rest]].
  - discriminate.
  - injection Hv1 as <-. reflexivity.
  - exfalso. cbn [length] in Hsize. lia.
Qed.

(** X5.  A translated AggregateRel (later revision) is an "aggregate"
    declaration over the translation of its input.  It has exactly one
    grouping, whose expressions all translate to field references: these
    are the keys, in order.  Every measure has a function, no filter and a
    single argument translating to a field reference; the aggregates are,
    in measure order, the function name decoded from the function reference,
    with that field as target and an empty name.  The declared column count
    is the number of measures as an [int]; the keys are not counted. *)
Theorem aggregate_declaration_contents c input groupings measures adv
        (d : DeclarationInfo E) :
  Info.FromProto DebugString (RelAggregate c input groupings measures adv) = Ok d ->
  exists i L group keys aggregates,
    input = Some i /\ Info.FromProto DebugString i = Ok L /\
    groupings = [group] /\
    declaration d =
      mkDeclaration "aggregate" [declaration L]
                    (AggregateNodeOptions aggregates keys) /\
    length keys = length group /\
    (forall j e, nth_error group j = Some e ->
       exists ref, FromProto_Expression E e = Ok (field_ref ref) /\
                   nth_error keys j = Some ref) /\
    length aggregates = length measures /\
    (forall j m, nth_error measures j = Some m ->
       exists f arg name target,
         measure m = Some f /\ measure_filter m = None /\
         arguments f = [arg] /\
         DecodeFunction E (function_reference f) = Ok name /\
         FromProto_Expression E arg = Ok (field_ref target) /\
         nth_error aggregates j = Some (mkAggregate name target "")) /\
    num_columns d = static_cast_int (size measures).
Proof.
  intros H. apply Info_aggregate_Ok_inv in H.
  destruct H as (i & L & group & keys & aggregates &
                 -> & _ & HL & -> & Hkeys & Haggs & Hd & Hn).
  exists i, L, group, keys, aggregates.
  split; [reflexivity |]. split; [exact HL |]. split; [reflexivity |].
  split; [exact Hd |].
  split; [exact (for_each_length _ _ Hkeys) |].
  split.
  { intros j e Hj.
    destruct (for_each_nth _ _ Hkeys _ Hj) as (ref & Href & Hk).
    exists ref. split; [now apply grouping_key_Ok_inv | exact Href]. }
  split; [exact (for_each_length _ _ Haggs) |].
  split.
  { intros j m Hj.
    destruct (for_each_nth _ _ Haggs _ Hj) as (a & Ha & Hm).
    apply measure_aggregate_Ok_inv in Hm
      as (f & arg & name & target & H1 & H2 & H3 & H4 & H5 & ->).
    exists f, arg, name, target. repeat split; assumption. }
  rewrite Hn. unfold size. now rewrite (for_each_length _ _ Haggs).
Qed.

(** X6.  What the aggregate case (later revision) refuses, once the common
    check has passed: no input relation is Invalid; with a translated
    input, more than one grouping is NotImplemented; with exactly one
    grouping, a grouping expression that translates to something else than
    a field reference is Invalid; and with translated keys, a measure
    without function is Invalid, a measure with a filter is NotImplemented
    and a measure whose function has not exactly one argument is
    NotImplemented, when all measures before it go through. *)
Theorem aggregate_refusals c adv :
  CheckRelCommon c adv = Ok tt ->
  (forall groupings measures,
     raises Invalid
       (Info.FromProto DebugString (RelAggregate c None groupings measures adv))) /\
  (forall i L, Info.FromProto DebugString i = Ok L ->
     (forall groupings measures, (1 < length groupings)%nat ->
        raises NotImplemented
          (Info.FromProto DebugString
             (RelAggregate c (Some i) groupings measures adv))) /\
     (forall pre e post ex keys measures,
        for_each (Info.grouping_key E) pre = Ok keys ->
        FromProto_Expression E e = Ok ex -> Expression_field_ref ex = None ->
        raises Invalid
          (Info.FromProto DebugString
             (RelAggregate c (Some i) [pre ++ e :: post] measures adv))) /\
     (forall group keys pre m post aggregates,
        for_each (Info.grouping_key E) group = Ok keys ->
        for_each (@Info.measure_aggregate E) pre = Ok aggregates ->
        (measure m = None ->
         raises Invalid
           (Info.FromProto DebugString
              (RelAggregate c (Some i) [group] (pre ++ m :: post) adv))) /\
        (forall f flt, measure m = Some f -> measure_filter m = Some flt ->
         raises NotImplemented
           (Info.FromProto DebugString
              (RelAggregate c (Some i) [group] (pre ++ m :: post) adv))) /\
        (forall f, measure m = Some f -> measure_filter m = None ->
                   length (arguments f) <> 1%nat ->
         raises NotImplemented
           (Info.FromProto DebugString
              (RelAggregate c (Some i) [group] (pre ++ m :: post) adv))))).
Proof.
  intros Hc. split.
  { intros. simpl. rewrite Hc. eexists; reflexivity. }
  intros i L HL. split; [| split].
  - intros groupings measures Hlen. simpl. rewrite Hc, HL. simpl.
    destruct (size groupings >? 1) eqn:Hs; [eexists; reflexivity |].
    exfalso. rewrite Z.gtb_ltb in Hs. apply Z.ltb_ge in Hs.
    unfold size in Hs. lia.
  - intros pre e post ex keys measures Hpre He Hnone.
    simpl. rewrite Hc, HL. simpl.
    assert (Hkey : exists msg, Info.grouping_key E e = Raise (mkStatus Invalid msg)).
    { unfold Info.grouping_key. rewrite He. simpl. rewrite Hnone.
      eexists; reflexivity. }
    destruct Hkey as [msg Hkey].
    erewrite for_each_first_failure by eassumption.
    eexists; reflexivity.
  - intros group keys pre m post aggregates Hkeys Hpre.
    assert (Hreach : forall st, Info.measure_aggregate m = Raise st ->
              Info.FromProto DebugString
                (RelAggregate c (Some i) [group] (pre ++ m :: post) adv)
              = Raise st).
    { intros st Hm. simpl. rewrite Hc, HL. simpl. rewrite Hkeys. simpl.
      erewrite for_each_first_failure by eassumption. reflexivity. }
    split; [| split].
    + intros Hnone. eexists. apply Hreach.
      unfold Info.measure_aggregate. rewrite Hnone. reflexivity.
    + intros f flt Hf Hflt. eexists. apply Hreach.
      unfold Info.measure_aggregate. rewrite Hf, Hflt. reflexivity.
    + intros f Hf Hflt Hargs. eexists. apply Hreach.
      unfold Info.measure_aggregate. rewrite Hf, Hflt.
      destruct (size (arguments f) =? 1) eqn:Hs; [| reflexivity].
      exfalso. apply Z.eqb_eq in Hs. unfold size in Hs. lia.
Qed.

(** X7.  An AggregateRel without any grouping whose common check and input
    go through is not answered with a Status: [groupings(0)] is read from
    the empty repeated field. *)
Theorem aggregate_without_grouping c adv i L measures :
  CheckRelCommon c adv = Ok tt ->
  Info.FromProto DebugString i = Ok L ->
  Info.FromProto DebugString (RelAggregate c (Some i) [] measures adv) = Undefined.
Proof.
  intros Hc HL. simpl. rewrite Hc, HL. reflexivity.
Qed.

End AggregateCase.

(** Sum of column 2 grouped by column 0 over the first sample scan. *)
Lemma aggregate_declaration_contents_witness :
  Info.FromProto Sample.debug
    (SampleAggregate.grouped [[Sample.key 0]] [SampleAggregate.sum_of 2])
  = Ok SampleAggregate.translated /\
  exists keys aggregates,
    declaration SampleAggregate.translated =
      mkDeclaration "aggregate" [declaration Sample.info_abc]
                    (AggregateNodeOptions aggregates keys) /\
    nth_error keys 0 = Some (FieldPath [0]) /\
    nth_error aggregates 0 = Some (mkAggregate "sum" (FieldPath [2]) "") /\
    num_columns SampleAggregate.translated = 1.
Proof.
  assert (Hd : Info.FromProto Sample.debug
                 (SampleAggregate.grouped [[Sample.key 0]]
                                          [SampleAggregate.sum_of 2])
               = Ok SampleAggregate.translated) by reflexivity.
  split; [exact Hd |].
  destruct (aggregate_declaration_contents _ _ _ _ _ _ Hd)
    as (i & L & group & keys & aggregates &
        Hi & HL & Hg & Hdecl & _ & Hkeys & _ & Haggs & Hn).
  injection Hi as <-. rewrite Sample_scan_abc in HL. injection HL as <-.
  injection Hg as <-.
  exists keys, aggregates. split; [exact Hdecl |].
  split.
  { destruct (Hkeys 0%nat _ eq_refl) as (ref & Href & Hk).
    injection Href as <-. exact Hk. }
  split.
  { destruct (Haggs 0%nat _ eq_refl)
      as (f & arg & name & target & Hf & _ & Hargs & Hname & Harg & Ha).
    injection Hf as <-. injection Hargs as <-.
    injection Hname as <-. injection Harg as <-. exact Ha. }
  exact Hn.
Defined.

Lemma aggregate_refusals_witness :
  raises NotImplemented
    (Info.FromProto Sample.debug
       (SampleAggregate.grouped [[Sample.key 0]; [Sample.key 1]]
                                [SampleAggregate.sum_of 2])) /\
  raises Invalid
    (Info.FromProto Sample.debug
       (SampleAggregate.grouped [[Sample.key 0]]
          [SampleAggregate.sum_of 2; @mkMeasure Sample.env None None])).
Proof.
  destruct (aggregate_refusals Sample.debug None false eq_refl) as [_ H].
  destruct (H _ _ Sample_scan_abc) as (Hgroupings & _ & Hmeasures).
  split.
  - apply Hgroupings. simpl. lia.
  - destruct (Hmeasures [Sample.key 0] [FieldPath [0]]
                [SampleAggregate.sum_of 2] (@mkMeasure Sample.env None None) []
                [mkAggregate "sum" (FieldPath [2]) ""] eq_refl eq_refl)
      as (Hnone & _).
    exact (Hnone eq_refl).
Defined.

Lemma aggregate_without_grouping_witness :
  Info.FromProto Sample.debug
    (SampleAggregate.grouped [] [SampleAggregate.sum_of 2]) = Undefined.
Proof.
  exact (aggregate_without_grouping Sample.debug None false Sample.scan_abc
           [SampleAggregate.sum_of 2] eq_refl Sample_scan_abc).
Defined.

(** ** Projection expressions *)

Section ProjectExpressions.

Context (E : Collaborators).
Variable DebugString : Rel E -> string.

(** X8.  In the older revision a translated ProjectRel carries exactly the
    translations of its own expressions, as many and in the same order,
    over the translation of its input: no reference to an input column is
    added.  In both revisions, when the common check and the input go
    through, the first expression that fails to translate decides the
    result (in the later revision provided the expression vector can be
    reserved: a non-negative input column count and a total within
    [int]). *)
Theorem project_expressions_translated c adv :
  (forall input exprs d,
     Decl.FromProto DebugString (RelProject c input exprs adv) = Ok d ->
     exists i L own,
       input = Some i /\ Decl.FromProto DebugString i = Ok L /\
       inputs d = [L] /\
       project_expressions d = Some own /\
       length own = length exprs /\
       (forall j se, nth_error exprs j = Some se ->
          exists ex, FromProto_Expression E se = Ok ex /\
                     nth_error own j = Some ex)) /\
  (forall pre se post translated st,
     CheckRelCommon c adv = Ok tt ->
     for_each (FromProto_Expression E) pre = Ok translated ->
     FromProto_Expression E se = Raise st ->
     (forall i L, Decl.FromProto DebugString i = Ok L ->
        Decl.FromProto DebugString (RelProject c (Some i) (pre ++ se :: post) adv)
        = Raise st) /\
     (forall i L, Info.FromProto DebugString i = Ok L ->
        0 <= num_columns L ->
        num_columns L + size (pre ++ se :: post) <= INT_MAX ->
        Info.FromProto DebugString (RelProject c (Some i) (pre ++ se :: post) adv)
        = Raise st)).
Proof.
  split.
  - intros input exprs d H. apply Decl_project_Ok_inv in H.
    destruct H as (i & L & own & -> & _ & HL & Hown & Hs).
    apply Sequence_pair_Ok_inv in Hs as (_ & Hopt & Hin); [| reflexivity].
    exists i, L, own. split; [reflexivity |]. split; [exact HL |].
    split; [exact Hin |].
    split; [unfold project_expressions; now rewrite Hopt |].
    split; [exact (for_each_length _ _ Hown) |].
    intros j se Hj. destruct (for_each_nth _ _ Hown _ Hj) as (ex & Hex & Hse).
    exists ex. split; assumption.
  - intros pre se post translated st Hc Hpre Hse. split.
    + intros i L HL. simpl. rewrite Hc, HL. simpl.
      erewrite for_each_first_failure by eassumption. reflexivity.
    + intros i L HL Hnn Hmax. simpl. rewrite Hc, HL. simpl.
      unfold int_add.
      assert (Hsz : 0 <= size (pre ++ se :: post)) by (unfold size; lia).
      destruct ((INT_MIN <=? num_columns L + size (pre ++ se :: post)) &&
                (num_columns L + size (pre ++ se :: post) <=? INT_MAX)) eqn:Hr.
      * simpl. unfold Info.reserve.
        destruct (num_columns L + size (pre ++ se :: post) <? 0) eqn:Hneg.
        { apply Z.ltb_lt in Hneg. lia. }
        simpl. erewrite for_each_first_failure by eassumption. reflexivity.
      * exfalso. apply andb_false_iff in Hr as [Hr | Hr].
        { apply Z.leb_gt in Hr. unfold INT_MIN in Hr. lia. }
        { apply Z.leb_gt in Hr. lia. }
Qed.

End ProjectExpressions.

(** An expression of a kind the expression translation does not support,
    after one that translates, over the scan of /tmp/dat1.parquet. *)
Lemma Catalog_read_dat1 :
  Info.FromProto Catalog.debug Catalog.read_dat1 = Ok Catalog.info_dat1.
Proof. reflexivity. Qed.

Lemma Catalog_read_dat1_older :
  Decl.FromProto Catalog.debug Catalog.read_dat1
  = Ok (declaration Catalog.info_dat1).
Proof. reflexivity. Qed.

Lemma project_expressions_translated_witness :
  let exprs := [Catalog.Translated (Sample.key 0); Catalog.Unsupported "window"] in
  (exists d own,
     Decl.FromProto Catalog.debug
       (RelProject None (Some Catalog.read_dat1)
                   [Catalog.Translated (Sample.key 0)] false) = Ok d /\
     project_expressions d = Some own /\ length own = 1%nat) /\
  Decl.FromProto Catalog.debug
    (RelProject None (Some Catalog.read_dat1) exprs false)
  = Raise (mkStatus NotImplemented "window") /\
  Info.FromProto Catalog.debug
    (RelProject None (Some Catalog.read_dat1) exprs false)
  = Raise (mkStatus NotImplemented "window").
Proof.
  intros exprs.
  destruct (project_expressions_translated Catalog.debug None false)
    as [Hcontents Hfailure].
  split.
  - eassert (Hd : Decl.FromProto Catalog.debug
                    (RelProject None (Some Catalog.read_dat1)
                       [Catalog.Translated (Sample.key 0)] false) = Ok _)
      by reflexivity.
    destruct (Hcontents _ _ _ Hd) as (i & L & own & _ & _ & _ & Hown & Hlen & _).
    eexists _, own. split; [exact Hd |]. split; [exact Hown | exact Hlen].
  - destruct (Hfailure [Catalog.Translated (Sample.key 0)]
                (Catalog.Unsupported "window") [] [Sample.key 0]
                (mkStatus NotImplemented "window") eq_refl eq_refl eq_refl)
      as [Hdecl Hinfo].
    split.
    + exact (Hdecl _ _ Catalog_read_dat1_older).
    + apply (Hinfo _ _ Catalog_read_dat1); simpl; unfold INT_MAX; lia.
Defined.

(** * Serialization *)

(** ** The older revision *)

Section OlderSerialization.

Context (E : Collaborators) (S : Serializers E).
Variable DebugString : Rel E -> string.

Lemma DeclSerde_file_item_Ok_inv (name file : string) (item : FileOrFiles) :
  DeclSerde.file_item name file = Ok item ->
  item = mkFileOrFiles (kUriPath ("file://" ++ file)) FILE_FORMAT_NOT_SET
                       FILE_FORMAT_PARQUET 0 0 0 /\
  (name = "parquet" \/ name = "arrow" \/ name = "feather").
Proof.
  unfold DeclSerde.file_item.
  destruct (String.eqb_spec name "parquet") as [-> | _]; simpl.
  { intros [= <-]. split; [reflexivity | now left]. }
  destruct (String.eqb_spec name "arrow") as [-> | _]; simpl.
  { intros [= <-]. split; [reflexivity | right; now left]. }
  destruct (String.eqb_spec name "feather") as [-> | _]; simpl.
  { intros [= <-]. split; [reflexivity | right; now right]. }
  discriminate.
Qed.

Lemma for_each_DeclSerde_file_item (name : string) (files : list string) items :
  for_each (DeclSerde.file_item name) files = Ok items ->
  items = map (fun file =>
                 mkFileOrFiles (kUriPath ("file://" ++ file)) FILE_FORMAT_NOT_SET
                               FILE_FORMAT_PARQUET 0 0 0) files /\
  (files <> [] -> name = "parquet" \/ name = "arrow" \/ name = "feather").
Proof.
  revert items; induction files as [| f files IH]; simpl; intros items H.
  - injection H as <-. split; [reflexivity | congruence].
  - inv_bind H. inv_bind H. injection H as <-.
    apply DeclSerde_file_item_Ok_inv in Hv as [-> Hname].
    apply IH in Hv0 as [-> _]. split; [reflexivity | intros _; exact Hname].
Qed.

Lemma DeclSerde_scan_eq ins o :
  DeclSerde.ToProto S (mkDeclaration "scan" ins o)
  = DeclSerde.AddReadRelation S (mkDeclaration "scan" ins o).
Proof. reflexivity. Qed.

Lemma DeclSerde_enum_map_find_other (name : string) :
  name <> "scan" -> name <> "filter" -> name <> "project" ->
  name <> "hashjoin" -> name <> "aggregate" ->
  DeclSerde.enum_map_find name = None.
Proof.
  intros H1 H2 H3 H4 H5.
  unfold DeclSerde.enum_map_find, DeclSerde.enum_map. cbn [find fst].
  rewrite (proj2 (String.eqb_neq "scan" name)) by congruence.
  rewrite (proj2 (String.eqb_neq "filter" name)) by congruence.
  rewrite (proj2 (String.eqb_neq "project" name)) by congruence.
  rewrite (proj2 (String.eqb_neq "hashjoin" name)) by congruence.
  rewrite (proj2 (String.eqb_neq "aggregate" name)) by congruence.
  reflexivity.
Qed.

Lemma DeclSerde_scan_Ok_inv ins dataset scan_options (rel : Rel E) :
  DeclSerde.ToProto S (mkDeclaration "scan" ins (ScanNodeOptions dataset scan_options))
  = Ok rel ->
  exists files named_struct,
    FileSystemDataset_files S dataset = Some files /\
    ToProto_Schema S (Dataset_schema S dataset) = Ok named_struct /\
    rel = RelRead
            (mkReadRel E None named_struct None false
               (Some (mkLocalFiles
                        (map (fun file =>
                                mkFileOrFiles (kUriPath ("file://" ++ file))
                                              FILE_FORMAT_NOT_SET
                                              FILE_FORMAT_PARQUET 0 0 0) files)
                        false))
               false) /\
    (files <> [] ->
     format_type_name S dataset = "parquet" \/
     format_type_name S dataset = "arrow" \/
     format_type_name S dataset = "feather").
Proof.
  rewrite DeclSerde_scan_eq. unfold DeclSerde.AddReadRelation. simpl.
  destruct (FileSystemDataset_files S dataset) as [files |]; [| discriminate].
  intros H. inv_bind H. rename v into named. inv_bind H. injection H as <-.
  apply for_each_DeclSerde_file_item in Hv0 as [-> Hname].
  exists files, named. repeat split; assumption.
Qed.

Lemma for_each_DeclSerde_file_item_Ok (name : string) (files : list string) :
  (files <> [] -> name = "parquet" \/ name = "arrow" \/ name = "feather") ->
  for_each (DeclSerde.file_item name) files
  = Ok (map (fun file =>
               mkFileOrFiles (kUriPath ("file://" ++ file)) FILE_FORMAT_NOT_SET
                             FILE_FORMAT_PARQUET 0 0 0) files).
Proof.
  destruct files as [| f0 files0]; [reflexivity |].
  intros Hname. specialize (Hname ltac:(discriminate)).
  assert (Hitem : forall file,
             DeclSerde.file_item name file
             = Ok (mkFileOrFiles (kUriPath ("file://" ++ file))
                                 FILE_FORMAT_NOT_SET FILE_FORMAT_PARQUET 0 0 0)).
  { intros file. destruct Hname as [-> | [-> | ->]]; reflexivity. }
  generalize (f0 :: files0). intros files.
  induction files as [| f files IH]; [reflexivity |].
  cbn [for_each map]. rewrite Hitem, IH. reflexivity.
Qed.

(** X9.  The older ToProto serializes a "scan" exactly when its dataset is
    a file system dataset whose schema serializes and, if it has files,
    whose format is named parquet, arrow or feather.  The result is the
    ReadRel without filter and without projection whose base schema is the
    serialized dataset schema and whose items are, in the order of the
    dataset's files, [uri_path "file://" + file], each with format
    FILE_FORMAT_PARQUET.  Neither the scan filter nor the inputs of the
    declaration take part. *)
Theorem older_scan_serialized ins dataset scan_options (rel : Rel E) :
  DeclSerde.ToProto S (mkDeclaration "scan" ins (ScanNodeOptions dataset scan_options))
  = Ok rel <->
  exists files named_struct,
    FileSystemDataset_files S dataset = Some files /\
    ToProto_Schema S (Dataset_schema S dataset) = Ok named_struct /\
    rel = RelRead
            (mkReadRel E None named_struct None false
               (Some (mkLocalFiles
                        (map (fun file =>
                                mkFileOrFiles (kUriPath ("file://" ++ file))
                                              FILE_FORMAT_NOT_SET
                                              FILE_FORMAT_PARQUET 0 0 0) files)
                        false))
               false) /\
    (files <> [] ->
     format_type_name S dataset = "parquet" \/
     format_type_name S dataset = "arrow" \/
     format_type_name S dataset = "feather").
Proof.
  split; [apply DeclSerde_scan_Ok_inv |].
  intros (files & named & Hfiles & Hnamed & -> & Hname).
  rewrite DeclSerde_scan_eq. unfold DeclSerde.AddReadRelation.
  cbn [options]. rewrite Hfiles, Hnamed. cbn [bind].
  rewrite (for_each_DeclSerde_file_item_Ok Hname). reflexivity.
Qed.

Lemma DeclSerde_join_Ok_inv ins o (rel : Rel E) :
  DeclSerde.ToProto S (mkDeclaration "hashjoin" ins o) = Ok rel ->
  exists jo dl dr rest l r lk rk e,
    o = HashJoinOptions jo /\ ins = dl :: dr :: rest /\
    DeclSerde.ToProto S dl = Ok l /\
    DeclSerde.ToProto S dr = Ok r /\
    nth_error (left_keys jo) 0 = Some lk /\
    nth_error (right_keys jo) 0 = Some rk /\
    nth_error (key_cmp jo) 0 = Some EQ /\
    ToProto_Expression S (Some (equal (field_ref lk) (field_ref rk))) = Ok e /\
    rel = RelJoin None (Some l) (Some r) (Some e) JOIN_TYPE_UNSPECIFIED false.
Proof.
  intros H. simpl in H.
  destruct o as [? ? | ? | ? | jo | ? ?]; try discriminate.
  destruct ins as [| dl [| dr rest]]; try discriminate.
  inv_bind H. rename v into l. inv_bind H. rename v into r.
  unfold DeclSerde.join_relation, index in H.
  destruct (nth_error (left_keys jo) 0) as [lk |] eqn:Hlk; [| discriminate].
  destruct (nth_error (right_keys jo) 0) as [rk |] eqn:Hrk; [| discriminate].
  destruct (nth_error (key_cmp jo) 0) as [[|] |] eqn:Hcmp; try discriminate.
  simpl in H. inv_bind H. rename v into e. injection H as <-.
  exists jo, dl, dr, rest, l, r, lk, rk, e. repeat split; assumption.
Qed.

(** X10.  The older ToProto serializes a "hashjoin" declaration to a
    JoinRel whose left and right relations are the serializations of
    inputs[0] and inputs[1] and whose expression is the serialization of
    [equal(left_keys[0], right_keys[0])]: the first key comparison must be
    EQ, keys after the first take no part, and the join type of the
    declaration is not written, the JoinRel keeping JOIN_TYPE_UNSPECIFIED.
    Both revisions of FromProto therefore refuse the result with
    NotImplemented: no serialized join is read back. *)
Theorem older_join_serialized ins o (rel : Rel E) :
  DeclSerde.ToProto S (mkDeclaration "hashjoin" ins o) = Ok rel ->
  (exists jo dl dr rest l r lk rk e,
     o = HashJoinOptions jo /\ ins = dl :: dr :: rest /\
     DeclSerde.ToProto S dl = Ok l /\
     DeclSerde.ToProto S dr = Ok r /\
     nth_error (left_keys jo) 0 = Some lk /\
     nth_error (right_keys jo) 0 = Some rk /\
     nth_error (key_cmp jo) 0 = Some EQ /\
     ToProto_Expression S (Some (equal (field_ref lk) (field_ref rk))) = Ok e /\
     rel = RelJoin None (Some l) (Some r) (Some e) JOIN_TYPE_UNSPECIFIED false) /\
  raises NotImplemented (Decl.FromProto DebugString rel) /\
  raises NotImplemented (Info.FromProto DebugString rel).
Proof.
  intros H. apply DeclSerde_join_Ok_inv in H. rename H into Hinv.
  split; [exact Hinv |].
  destruct Hinv as (jo & dl & dr & rest & l & r & lk & rk & e &
                    _ & _ & _ & _ & _ & _ & _ & _ & ->).
  split; eexists; reflexivity.
Qed.

(** X11.  What the older ToProto does not serialize: "filter", "project"
    and "aggregate" declarations are NotImplemented whatever they contain;
    a "hashjoin" whose first key comparison is IS is NotImplemented once
    its two inputs are serialized; a declaration of any other factory name
    ("sink" for one) gets no Status at all, the name being looked up in
    [enum_map] and the result of [find] used unchecked; neither does a
    "hashjoin" with fewer than two inputs. *)
Theorem older_serialization_refusals :
  (forall ins o,
     raises NotImplemented (DeclSerde.ToProto S (mkDeclaration "filter" ins o)) /\
     raises NotImplemented (DeclSerde.ToProto S (mkDeclaration "project" ins o)) /\
     raises NotImplemented (DeclSerde.ToProto S (mkDeclaration "aggregate" ins o))) /\
  (forall dl dr rest jo l r lk rk cmps,
     DeclSerde.ToProto S dl = Ok l -> DeclSerde.ToProto S dr = Ok r ->
     nth_error (left_keys jo) 0 = Some lk ->
     nth_error (right_keys jo) 0 = Some rk ->
     key_cmp jo = IS :: cmps ->
     raises NotImplemented
       (DeclSerde.ToProto S
          (mkDeclaration "hashjoin" (dl :: dr :: rest) (HashJoinOptions jo)))) /\
  (forall name ins o,
     name <> "scan" -> name <> "filter" -> name <> "project" ->
     name <> "hashjoin" -> name <> "aggregate" ->
     DeclSerde.ToProto S (mkDeclaration name ins o) = Undefined) /\
  (forall ins o, (length ins < 2)%nat ->
     DeclSerde.ToProto S (mkDeclaration "hashjoin" ins o) = Undefined).
Proof.
  split; [| split; [| split]].
  - intros ins o. repeat split; eexists; reflexivity.
  - intros dl dr rest jo l r lk rk cmps Hl Hr Hlk Hrk Hcmp. simpl.
    rewrite Hl, Hr. simpl. unfold DeclSerde.join_relation, index.
    rewrite Hlk, Hrk, Hcmp. simpl. eexists; reflexivity.
  - intros name ins o H1 H2 H3 H4 H5. simpl.
    now rewrite DeclSerde_enum_map_find_other.
  - intros ins o Hlen. simpl.
    destruct o; destruct ins as [| dl [| dr rest]]; simpl in Hlen; try lia;
      reflexivity.
Qed.

Lemma last_item_map A B (g : A -> B) (xs : list A) :
  last_item (map g xs) = option_map g (last_item xs).
Proof.
  unfold last_item. rewrite <- map_rev. destruct (rev xs); reflexivity.
Qed.

Lemma last_item_nonempty A (xs : list A) :
  xs <> [] -> exists x, last_item xs = Some x.
Proof.
  intros H. unfold last_item. destruct (rev xs) as [| x r] eqn:Hr.
  - apply (f_equal (@rev A)) in Hr. rewrite rev_involutive in Hr. contradiction.
  - eauto.
Qed.

(** X12.  A scan serialized by the older ToProto and translated back by
    the older FromProto: every file of the dataset is an absolute path; the
    result is a scan without filter, whatever filter the serialized scan
    had; and the format handed to the dataset factory is Parquet as soon as
    the dataset has a file, also when the dataset's format is named arrow
    or feather.  A dataset without files comes back as no files and no
    format. *)
Theorem older_scan_read_back ins dataset scan_options (rel : Rel E)
        (d' : Declaration E) :
  DeclSerde.ToProto S (mkDeclaration "scan" ins (ScanNodeOptions dataset scan_options))
  = Ok rel ->
  Decl.FromProto DebugString rel = Ok d' ->
  exists files ds' factory files' format schema',
    FileSystemDataset_files S dataset = Some files /\
    Forall (fun file => starts_with file "/" = true) files /\
    d' = mkDeclaration "scan" [] (ScanNodeOptions ds' (mkScanOptions None true)) /\
    FileSystemDatasetFactory_Make E files' format = Ok factory /\
    DatasetFactory_Finish E factory schema' = Ok ds' /\
    (files <> [] -> format = Some ParquetFileFormat) /\
    (files = [] -> format = None /\ files' = []).
Proof.
  intros Hser Hback. apply DeclSerde_scan_Ok_inv in Hser.
  destruct Hser as (files & named & Hfiles & _ & -> & _).
  simpl in Hback. inv_bind Hback. destruct v as [d0 schema'].
  injection Hback as <-.
  apply read_case_Ok_inv in Hv.
  destruct Hv as (filter & lf & fmt & files' & factory & ds' &
                  _ & _ & Hfilter & _ & Hlf & _ & Hloop & Hmake & Hfin & ->).
  simpl in Hfilter, Hlf. injection Hlf as <-. simpl in Hloop.
  destruct Hfilter as [[_ ->] | (f & e & Hf & _)]; [| discriminate].
  exists files, ds', factory, files', fmt, schema'.
  split; [exact Hfiles |]. split.
  { apply read_items_accepted in Hloop.
    rewrite Forall_map in Hloop.
    eapply Forall_impl; [| exact Hloop].
    intros file [(Hstart & _) _]. exact Hstart. }
  split; [reflexivity |]. split; [exact Hmake |]. split; [exact Hfin |].
  split.
  - intros Hne. apply for_state_read_item_format in Hloop.
    rewrite last_item_map in Hloop.
    destruct (last_item_nonempty Hne) as [file Hlast].
    rewrite Hlast in Hloop. simpl in Hloop.
    destruct Hloop as (f & Hf & ->). injection Hf as <-. reflexivity.
  - intros ->. simpl in Hloop. injection Hloop as <- <-. split; reflexivity.
Qed.

End OlderSerialization.

(** A scan of /tmp/dat1.parquet recorded as an arrow dataset, with a
    filter. *)
Lemma older_scan_serialized_witness :
  DeclSerde.ToProto Catalog.serializers
    (Catalog.scan "arrow" (Some (Sample.key 1)))
  = Ok (Catalog.read_back FILE_FORMAT_NOT_SET FILE_FORMAT_PARQUET).
Proof.
  apply (proj2 (older_scan_serialized Catalog.serializers []
                  (Catalog.dataset "arrow")
                  (@mkScanOptions Catalog.env (Some (Sample.key 1)) true)
                  (Catalog.read_back FILE_FORMAT_NOT_SET FILE_FORMAT_PARQUET))).
  exists ["/tmp/dat1.parquet"], ["A"; "B"; "C"].
  split; [reflexivity |]. split; [reflexivity |]. split; [reflexivity |].
  intros _. right. left. reflexivity.
Defined.

(** A join of two scans on columns 0 and 1, declared as a left outer
    join. *)
Lemma older_join_serialized_witness :
  let join :=
    Catalog.hashjoin (Catalog.scan "parquet" None) (Catalog.scan "parquet" None)
      (mkHashJoinNodeOptions LEFT_OUTER [FieldPath [0]] [FieldPath [1]] [EQ]) in
  exists rel,
    DeclSerde.ToProto Catalog.serializers join = Ok rel /\
    raises NotImplemented (Decl.FromProto Catalog.debug rel) /\
    raises NotImplemented (Info.FromProto Catalog.debug rel).
Proof.
  intros join.
  eassert (Hser : DeclSerde.ToProto Catalog.serializers join = Ok _)
    by reflexivity.
  destruct (older_join_serialized Catalog.serializers Catalog.debug _ _ Hser)
    as (_ & Hdecl & Hinfo).
  eexists. split; [exact Hser |]. split; [exact Hdecl | exact Hinfo].
Defined.

Lemma older_serialization_refusals_witness :
  raises NotImplemented
    (DeclSerde.ToProto Catalog.serializers
       (Catalog.hashjoin (Catalog.scan "parquet" None) (Catalog.scan "parquet" None)
          (mkHashJoinNodeOptions INNER [FieldPath [0]] [FieldPath [1]] [IS]))) /\
  DeclSerde.ToProto Catalog.serializers
    (mkDeclaration "sink" [Catalog.scan "parquet" None]
                   (options (Catalog.scan "parquet" None))) = Undefined /\
  DeclSerde.ToProto Catalog.serializers
    (mkDeclaration "hashjoin" [Catalog.scan "parquet" None]
       (HashJoinOptions
          (mkHashJoinNodeOptions INNER [FieldPath [0]] [FieldPath [1]] [EQ])))
  = Undefined.
Proof.
  destruct (older_serialization_refusals Catalog.serializers)
    as (_ & His & Hname & Hshort).
  split; [| split].
  - eapply His; reflexivity.
  - apply Hname; discriminate.
  - apply Hshort. simpl. lia.
Defined.

Lemma older_scan_read_back_witness :
  exists d' ds',
    DeclSerde.ToProto Catalog.serializers
      (Catalog.scan "arrow" (Some (Sample.key 1)))
    = Ok (Catalog.read_back FILE_FORMAT_NOT_SET FILE_FORMAT_PARQUET) /\
    Decl.FromProto Catalog.debug
      (Catalog.read_back FILE_FORMAT_NOT_SET FILE_FORMAT_PARQUET) = Ok d' /\
    d' = mkDeclaration "scan" []
           (ScanNodeOptions ds' (mkScanOptions None true)) /\
    Catalog.cat_type_name ds' = "parquet".
Proof.
  assert (Hser : DeclSerde.ToProto Catalog.serializers
                   (Catalog.scan "arrow" (Some (Sample.key 1)))
                 = Ok (Catalog.read_back FILE_FORMAT_NOT_SET FILE_FORMAT_PARQUET))
    by reflexivity.
  eassert (Hback : Decl.FromProto Catalog.debug
                     (Catalog.read_back FILE_FORMAT_NOT_SET FILE_FORMAT_PARQUET)
                   = Ok _) by reflexivity.
  destruct (older_scan_read_back Catalog.serializers Catalog.debug _ _ _
              Hser Hback)
    as (files & ds' & factory & files' & format & schema' &
        Hfiles & _ & Hd' & Hmake & Hfin & Hformat & _).
  injection Hfiles as <-.
  rewrite (Hformat ltac:(discriminate)) in Hmake.
  injection Hmake as <-. injection Hfin as <-.
  eexists _, _. split; [exact Hser |]. split; [exact Hback |].
  split; [exact Hd' | reflexivity].
Defined.

(** ** The later revision *)

Lemma Declaration_induction E (P : Declaration E -> Prop) :
  (forall name ins o, Forall P ins -> P (mkDeclaration name ins o)) ->
  forall d, P d.
Proof.
  intros H. fix IH 1. intros [name ins o]. apply H.
  revert ins. fix IHins 1. intros [| i ins].
  - constructor.
  - constructor; [apply IH | apply IHins].
Qed.

Section LaterSerialization.

Context (E : Collaborators) (S : Serializers E).
Variable DebugString : Rel E -> string.

Lemma SerializeAndCombineRelations_eq name ins o (rel : Rel E) :
  InfoSerde.SerializeAndCombineRelations S (mkDeclaration name ins o) rel =
  (rel <- for_state (fun rel input_decl =>
                       InfoSerde.SerializeAndCombineRelations S input_decl rel)
                    ins rel ;;
   schema <- InfoSerde.ExtractSchemaToBind S (mkDeclaration name ins o) ;;
   if negb (name =? "sink")%string then
     factory <- GetConverter S name ;;
     factory_rel <-
       match factory with
       | ScanConverter =>
           InfoSerde.ScanRelationConverter S schema (mkDeclaration name ins o)
       | FilterConverter =>
           InfoSerde.FilterRelationConverter S (InfoSerde.ToProto S) schema
                                             (mkDeclaration name ins o)
       | OtherConverter convert => convert schema (mkDeclaration name ins o)
       end ;;
     InfoSerde.SetRelation rel factory_rel name
   else Ok rel).
Proof. reflexivity. Qed.

Lemma ExtractSchemaToBind_names (d : Declaration E) schema :
  InfoSerde.ExtractSchemaToBind S d = Ok schema ->
  factory_name d = "scan" \/ factory_name d = "filter" \/ factory_name d = "sink".
Proof.
  destruct d as [name ins o]. simpl.
  destruct (String.eqb_spec name "scan") as [-> | _]; [now left |].
  destruct (String.eqb_spec name "filter") as [-> | _]; [right; now left |].
  destruct (String.eqb_spec name "sink") as [-> | _]; [right; now right |].
  discriminate.
Qed.

Lemma SetRelation_Ok_inv (plan partial rel : Rel E) (name : string) :
  InfoSerde.SetRelation plan partial name = Ok rel ->
  rel = partial /\
  ((name = "scan" /\ InfoSerde.has_read partial = true) \/
   (name = "filter" /\ InfoSerde.has_filter partial = true)).
Proof.
  unfold InfoSerde.SetRelation.
  destruct (String.eqb_spec name "scan") as [-> | Hn]; simpl.
  - destruct (InfoSerde.has_read partial) eqn:Hr.
    + intros [= <-]. split; [reflexivity | left; split; reflexivity].
    + simpl. discriminate.
  - destruct (String.eqb_spec name "filter") as [-> | _]; simpl; [| discriminate].
    destruct (InfoSerde.has_filter partial) eqn:Hf; [| discriminate].
    intros [= <-]. split; [reflexivity | right; split; reflexivity].
Qed.

Lemma serialized_nodes_supported :
  forall (d : Declaration E) rel0 rel,
    InfoSerde.SerializeAndCombineRelations S d rel0 = Ok rel ->
    forall n, node_of n d ->
      factory_name n = "scan" \/ factory_name n = "filter" \/
      factory_name n = "sink".
Proof.
  induction d as [name ins o IH] using Declaration_induction.
  intros rel0 rel H n Hn.
  rewrite SerializeAndCombineRelations_eq in H.
  inv_bind H. rename v into rel1. inv_bind H. rename v into schema.
  inversion Hn as [| name' ins' o' input Hin Hnode]; subst.
  - eapply ExtractSchemaToBind_names; eassumption.
  - clear H Hv0 Hn.
    revert rel0 Hv. induction ins as [| i ins IHins]; intros rel0 Hloop.
    + destruct Hin.
    + simpl in Hloop. inv_bind Hloop.
      inversion IH as [| ? ? IHi IHrest]; subst.
      destruct Hin as [<- | Hin].
      * eapply IHi; eassumption.
      * eapply IHins; eassumption.
Qed.

(** X13.  The later ToProto serializes a declaration only if every node of
    its tree is a "scan", a "filter" or a "sink", whatever converters the
    registry holds; and the relation it returns for a "scan" is a ReadRel
    and for a "filter" a FilterRel, again whatever the converter registered
    under that name produces. *)
Theorem later_serialization_supports (d : Declaration E) (rel : Rel E) :
  InfoSerde.ToProto S d = Ok rel ->
  (forall n, node_of n d ->
     factory_name n = "scan" \/ factory_name n = "filter" \/
     factory_name n = "sink") /\
  (factory_name d = "scan" -> InfoSerde.has_read rel = true) /\
  (factory_name d = "filter" -> InfoSerde.has_filter rel = true).
Proof.
  intros H. split.
  { intros n Hn. eapply serialized_nodes_supported; eassumption. }
  unfold InfoSerde.ToProto in H. destruct d as [name ins o].
  rewrite SerializeAndCombineRelations_eq in H.
  inv_bind H. rename v into rel1. inv_bind H. rename v into schema.
  simpl. split; intros ->; simpl in H; inv_bind H; inv_bind H;
    apply SetRelation_Ok_inv in H as [-> [[Hname Hk] | [Hname Hk]]];
    try discriminate Hname; exact Hk.
Qed.

Lemma later_sink_eq input o (rel : Rel E) :
  InfoSerde.SerializeAndCombineRelations S (mkDeclaration "sink" [input] o) rel
  = InfoSerde.SerializeAndCombineRelations S input rel.
Proof.
  rewrite SerializeAndCombineRelations_eq. simpl.
  destruct (InfoSerde.SerializeAndCombineRelations S input rel); reflexivity.
Qed.

Lemma InfoSerde_file_item_Ok_inv (name file : string) (item : FileOrFiles) :
  InfoSerde.file_item name file = Ok item ->
  exists fmt,
    item = mkFileOrFiles (kUriPath ("file://" ++ file)) fmt
                         FILE_FORMAT_UNSPECIFIED 0 0 0 /\
    ((name = "parquet" /\ fmt = kParquet) \/
     (name = "arrow" /\ fmt = kArrow) \/
     (name = "orc" /\ fmt = kOrc)).
Proof.
  unfold InfoSerde.file_item.
  destruct (String.eqb_spec name "parquet") as [-> | _].
  { intros [= <-]. exists kParquet. split; [reflexivity | now left]. }
  destruct (String.eqb_spec name "arrow") as [-> | _].
  { intros [= <-]. exists kArrow. split; [reflexivity | right; now left]. }
  destruct (String.eqb_spec name "orc") as [-> | _].
  { intros [= <-]. exists kOrc. split; [reflexivity | right; now right]. }
  discriminate.
Qed.

Lemma for_each_InfoSerde_file_item (name : string) (files : list string) items :
  for_each (InfoSerde.file_item name) files = Ok items ->
  exists fmt,
    items = map (fun file =>
                   mkFileOrFiles (kUriPath ("file://" ++ file)) fmt
                                 FILE_FORMAT_UNSPECIFIED 0 0 0) files /\
    (files <> [] ->
     (name = "parquet" /\ fmt = kParquet) \/
     (name = "arrow" /\ fmt = kArrow) \/
     (name = "orc" /\ fmt = kOrc)).
Proof.
  revert items; induction files as [| f files IH]; simpl; intros items H.
  - injection H as <-. exists kParquet. split; [reflexivity | congruence].
  - inv_bind H. inv_bind H. injection H as <-.
    apply InfoSerde_file_item_Ok_inv in Hv as (fmt & -> & Hname).
    apply IH in Hv0 as (fmt' & -> & Hname').
    exists fmt. split; [| intros _; exact Hname].
    simpl. f_equal. destruct files as [| f' files]; [reflexivity |].
    assert (Hne : f' :: files <> []) by discriminate.
    specialize (Hname' Hne).
    assert (fmt' = fmt) as ->; [| reflexivity].
    destruct Hname as [[-> ->] | [[-> ->] | [-> ->]]];
      destruct Hname' as [[Hn ->] | [[Hn ->] | [Hn ->]]];
      try reflexivity; discriminate.
Qed.

Lemma InfoSerde_scan_Ok_inv dataset scan_options (rel : Rel E) :
  GetConverter S "scan" = Ok ScanConverter ->
  InfoSerde.ToProto S
    (mkDeclaration "scan" [] (ScanNodeOptions dataset scan_options)) = Ok rel ->
  exists files named_struct fmt,
    FileSystemDataset_files S dataset = Some files /\
    ToProto_Schema S (Dataset_schema S dataset) = Ok named_struct /\
    rel = RelRead
            (mkReadRel E None named_struct None false
               (Some (mkLocalFiles
                        (map (fun file =>
                                mkFileOrFiles (kUriPath ("file://" ++ file)) fmt
                                              FILE_FORMAT_UNSPECIFIED 0 0 0)
                             files)
                        false))
               false) /\
    (files <> [] ->
     (format_type_name S dataset = "parquet" /\ fmt = kParquet) \/
     (format_type_name S dataset = "arrow" /\ fmt = kArrow) \/
     (format_type_name S dataset = "orc" /\ fmt = kOrc)).
Proof.
  intros Hreg H. unfold InfoSerde.ToProto in H.
  rewrite SerializeAndCombineRelations_eq in H. simpl in H.
  rewrite Hreg in H. simpl in H.
  inv_bind H. rename v into factory_rel.
  apply SetRelation_Ok_inv in H as [-> _].
  unfold InfoSerde.ScanRelationConverter in Hv. simpl in Hv.
  destruct (FileSystemDataset_files S dataset) as [files |]; [| discriminate].
  inv_bind Hv. rename v into named. inv_bind Hv. injection Hv as <-.
  apply for_each_InfoSerde_file_item in Hv1 as (fmt & -> & Hname).
  exists files, named, fmt. repeat split; assumption.
Qed.

Lemma for_each_InfoSerde_file_item_Ok (name : string) (files : list string) fmt :
  (files <> [] ->
   (name = "parquet" /\ fmt = kParquet) \/
   (name = "arrow" /\ fmt = kArrow) \/
   (name = "orc" /\ fmt = kOrc)) ->
  for_each (InfoSerde.file_item name) files
  = Ok (map (fun file =>
               mkFileOrFiles (kUriPath ("file://" ++ file)) fmt
                             FILE_FORMAT_UNSPECIFIED 0 0 0) files).
Proof.
  destruct files as [| f0 files0]; [reflexivity |].
  intros Hname. specialize (Hname ltac:(discriminate)).
  assert (Hitem : forall file,
             InfoSerde.file_item name file
             = Ok (mkFileOrFiles (kUriPath ("file://" ++ file)) fmt
                                 FILE_FORMAT_UNSPECIFIED 0 0 0)).
  { intros file. destruct Hname as [[-> ->] | [[-> ->] | [-> ->]]]; reflexivity. }
  generalize (f0 :: files0). intros files.
  induction files as [| f files IH]; [reflexivity |].
  cbn [for_each map]. rewrite Hitem, IH. reflexivity.
Qed.

(** X14.  With [ScanRelationConverter] registered for "scan", the later
    ToProto serializes a "scan" without inputs exactly when its dataset is
    a file system dataset whose schema serializes and, if it has files,
    whose format is named parquet, arrow or orc.  The result is the ReadRel
    without filter and without projection whose base schema is the
    serialized dataset schema and whose items are, in the order of the
    dataset's files, [uri_path "file://" + file], all with the read options
    of the dataset's format.  The scan filter of the declaration does not
    take part. *)
Theorem later_scan_serialized dataset scan_options (rel : Rel E) :
  GetConverter S "scan" = Ok ScanConverter ->
  (InfoSerde.ToProto S
     (mkDeclaration "scan" [] (ScanNodeOptions dataset scan_options)) = Ok rel
   <->
   exists files named_struct fmt,
     FileSystemDataset_files S dataset = Some files /\
     ToProto_Schema S (Dataset_schema S dataset) = Ok named_struct /\
     rel = RelRead
             (mkReadRel E None named_struct None false
                (Some (mkLocalFiles
                         (map (fun file =>
                                 mkFileOrFiles (kUriPath ("file://" ++ file)) fmt
                                               FILE_FORMAT_UNSPECIFIED 0 0 0)
                              files)
                         false))
                false) /\
     (files <> [] ->
      (format_type_name S dataset = "parquet" /\ fmt = kParquet) \/
      (format_type_name S dataset = "arrow" /\ fmt = kArrow) \/
      (format_type_name S dataset = "orc" /\ fmt = kOrc))).
Proof.
  intros Hreg. split; [now apply InfoSerde_scan_Ok_inv |].
  intros (files & named & fmt & Hfiles & Hnamed & -> & Hname).
  unfold InfoSerde.ToProto. rewrite SerializeAndCombineRelations_eq.
  cbn [for_state bind InfoSerde.ExtractSchemaToBind String.eqb Ascii.eqb
       Bool.eqb negb].
  rewrite Hreg. cbn [bind].
  unfold InfoSerde.ScanRelationConverter. cbn [options].
  rewrite Hfiles, Hnamed. cbn [bind].
  rewrite (for_each_InfoSerde_file_item_Ok Hname). reflexivity.
Qed.

(** X15.  With [FilterRelationConverter] registered for "filter", the later
    ToProto serializes a "filter" over a single input to a FilterRel over
    the serialized input.  When the filter expression is not bound yet, the
    condition is the serialization of the expression bound to the schema of
    the scan the filter chain ends in.  When the expression is bound
    already, the condition is the serialization of a default-constructed
    expression: over a serialized input the result is decided by that
    serialization alone, error included, and does not depend on the filter
    expression.  A "sink" over a single input serializes exactly as that
    input does. *)
Theorem later_filter_serialized :
  GetConverter S "filter" = Ok FilterConverter ->
  (forall input e rel,
     InfoSerde.ToProto S (mkDeclaration "filter" [input] (FilterNodeOptions e))
     = Ok rel ->
     exists input_rel condition,
       InfoSerde.ToProto S input = Ok input_rel /\
       rel = RelFilter None (Some input_rel) (Some condition) false /\
       (IsBound S e = true -> ToProto_Expression S None = Ok condition) /\
       (IsBound S e = false ->
        exists fields bound,
          InfoSerde.ExtractSchemaToBind S input = Ok (Some fields) /\
          Bind S e fields = Ok bound /\
          ToProto_Expression S (Some bound) = Ok condition)) /\
  (forall input e input_rel schema,
     IsBound S e = true ->
     InfoSerde.ToProto S input = Ok input_rel ->
     InfoSerde.ExtractSchemaToBind S input = Ok schema ->
     InfoSerde.ToProto S (mkDeclaration "filter" [input] (FilterNodeOptions e))
     = (condition <- ToProto_Expression S None ;;
        Ok (RelFilter None (Some input_rel) (Some condition) false))) /\
  (forall input o,
     InfoSerde.ToProto S (mkDeclaration "sink" [input] o)
     = InfoSerde.ToProto S input).
Proof.
  intros Hreg. split; [| split; [| intros; apply later_sink_eq]].
  - intros input e rel H. unfold InfoSerde.ToProto in H.
    rewrite SerializeAndCombineRelations_eq in H.
    apply bind_Ok_inv in H as (rel1 & Hloop & H).
    simpl in Hloop. apply bind_Ok_inv in Hloop as (input_rel & Hinput & _).
    apply bind_Ok_inv in H as (schema & Hschema & H).
    simpl in H. rewrite Hreg in H. simpl in H.
    apply bind_Ok_inv in H as (factory_rel & Hconv & H).
    apply SetRelation_Ok_inv in H as [-> _].
    unfold InfoSerde.FilterRelationConverter in Hconv. simpl in Hconv.
    apply bind_Ok_inv in Hconv as (bound & Hbound & Hconv).
    unfold InfoSerde.ToProto in Hconv. rewrite Hinput in Hconv.
    apply bind_Ok_inv in Hconv as (condition & Hcond & Hconv).
    injection Hconv as <-.
    exists input_rel, condition.
    split; [exact Hinput |]. split; [reflexivity |].
    assert (Hschema' : InfoSerde.ExtractSchemaToBind S input = Ok schema).
    { destruct input; exact Hschema. }
    destruct (IsBound S e); simpl in Hbound.
    + injection Hbound as <-. split; [intros _; exact Hcond | discriminate].
    + split; [discriminate |]. intros _.
      destruct schema as [fields |]; [| discriminate].
      apply bind_Ok_inv in Hbound as (b & Hb & Hbound). injection Hbound as <-.
      exists fields, b. repeat split; assumption.
  - intros input e input_rel schema Hb Hinput Hschema.
    unfold InfoSerde.ToProto in *.
    rewrite SerializeAndCombineRelations_eq.
    cbn [for_state]. rewrite Hinput. cbn [bind].
    assert (Hschema' : InfoSerde.ExtractSchemaToBind S
                         (mkDeclaration "filter" [input] (FilterNodeOptions e))
                       = Ok schema).
    { destruct input; exact Hschema. }
    rewrite Hschema'. cbn [bind String.eqb Ascii.eqb Bool.eqb negb].
    rewrite Hreg. cbn [bind].
    unfold InfoSerde.FilterRelationConverter. cbn [options inputs].
    rewrite Hb. cbn [negb bind]. unfold InfoSerde.ToProto. rewrite Hinput.
    destruct (ToProto_Expression S None) as [condition | st |]; reflexivity.
Qed.

(** X16.  A scan serialized by the later ToProto (converter registered) and
    translated back by the later FromProto is a scan without filter,
    whatever filter the serialized scan had, and the format handed to the
    dataset factory is Parquet for a dataset named parquet and IPC for one
    named arrow; a dataset with files named orc serializes but is never
    translated back. *)
Theorem later_scan_read_back dataset scan_options (rel : Rel E)
        (d' : DeclarationInfo E) :
  GetConverter S "scan" = Ok ScanConverter ->
  InfoSerde.ToProto S
    (mkDeclaration "scan" [] (ScanNodeOptions dataset scan_options)) = Ok rel ->
  Info.FromProto DebugString rel = Ok d' ->
  exists files ds' factory files' format schema',
    FileSystemDataset_files S dataset = Some files /\
    Forall (fun file => starts_with file "/" = true) files /\
    declaration d' =
      mkDeclaration "scan" [] (ScanNodeOptions ds' (mkScanOptions None true)) /\
    FileSystemDatasetFactory_Make E files' format = Ok factory /\
    DatasetFactory_Finish E factory schema' = Ok ds' /\
    (files <> [] ->
     (format_type_name S dataset = "parquet" /\ format = Some ParquetFileFormat) \/
     (format_type_name S dataset = "arrow" /\ format = Some IpcFileFormat)) /\
    (files = [] -> format = None /\ files' = []).
Proof.
  intros Hreg Hser Hback. apply InfoSerde_scan_Ok_inv in Hser; [| exact Hreg].
  destruct Hser as (files & named & fmt & Hfiles & _ & -> & Hname).
  simpl in Hback. inv_bind Hback. destruct v as [d0 schema'].
  injection Hback as <-.
  apply read_case_Ok_inv in Hv.
  destruct Hv as (filter & lf & format & files' & factory & ds' &
                  _ & _ & Hfilter & _ & Hlf & _ & Hloop & Hmake & Hfin & ->).
  simpl in Hfilter, Hlf. injection Hlf as <-. simpl in Hloop.
  destruct Hfilter as [[_ ->] | (f & e & Hf & _)]; [| discriminate].
  exists files, ds', factory, files', format, schema'.
  split; [exact Hfiles |]. split.
  { apply read_items_accepted in Hloop.
    rewrite Forall_map in Hloop.
    eapply Forall_impl; [| exact Hloop].
    intros file [(Hstart & _) _]. exact Hstart. }
  split; [reflexivity |]. split; [exact Hmake |]. split; [exact Hfin |].
  split.
  - intros Hne. apply for_state_read_item_format in Hloop.
    rewrite last_item_map in Hloop.
    destruct (last_item_nonempty Hne) as [file Hlast].
    rewrite Hlast in Hloop. simpl in Hloop.
    destruct Hloop as (f & Hf & ->).
    destruct (Hname Hne) as [[Hn ->] | [[Hn ->] | [Hn ->]]];
      try discriminate; injection Hf as <-; [left | right]; split;
      assumption || reflexivity.
  - intros ->. simpl in Hloop. injection Hloop as <- <-. split; reflexivity.
Qed.

Lemma ExtractSchemaToBind_of_chain dataset (d : Declaration E) :
  filters_over_scan dataset d ->
  InfoSerde.ExtractSchemaToBind S d = Ok (Some (Dataset_schema S dataset)).
Proof. induction 1; simpl; [reflexivity | assumption]. Qed.

Lemma ExtractSchemaToBind_chain (d : Declaration E) :
  forall fields,
    InfoSerde.ExtractSchemaToBind S d = Ok (Some fields) ->
    exists dataset, filters_over_scan dataset d /\ fields = Dataset_schema S dataset.
Proof.
  induction d as [name ins o IH] using Declaration_induction.
  intros fields H. simpl in H.
  destruct (String.eqb_spec name "scan") as [-> | _].
  { destruct o as [dataset so | | | |]; try discriminate.
    injection H as <-. exists dataset. split; [constructor | reflexivity]. }
  destruct (String.eqb_spec name "filter") as [-> | _].
  { destruct ins as [| input rest]; [discriminate |].
    inversion IH as [| ? ? IHinput _]; subst.
    destruct (IHinput _ H) as (dataset & Hchain & ->).
    exists dataset. split; [now constructor | reflexivity]. }
  destruct (String.eqb_spec name "sink") as [-> | _]; discriminate.
Qed.

(** X17.  ExtractSchemaToBind returns a schema exactly for a declaration
    that, from filter to filter along the first input, ends in a scan, and
    the schema is that of the scan's dataset; it returns the null schema
    for a "sink"; for a declaration of any other factory than "scan",
    "filter" and "sink" the result is Invalid; and a "filter" without
    inputs gets no Status, [inputs[0]] being read unchecked. *)
Theorem schema_to_bind (d : Declaration E) :
  (forall fields,
     InfoSerde.ExtractSchemaToBind S d = Ok (Some fields) <->
     exists dataset,
       filters_over_scan dataset d /\ fields = Dataset_schema S dataset) /\
  (factory_name d = "sink" -> InfoSerde.ExtractSchemaToBind S d = Ok None) /\
  (factory_name d <> "scan" -> factory_name d <> "filter" ->
   factory_name d <> "sink" ->
   raises Invalid (InfoSerde.ExtractSchemaToBind S d)) /\
  (factory_name d = "filter" -> inputs d = [] ->
   InfoSerde.ExtractSchemaToBind S d = Undefined).
Proof.
  split; [| split; [| split]].
  - intros fields. split.
    + apply ExtractSchemaToBind_chain.
    + intros (dataset & Hchain & ->). now apply ExtractSchemaToBind_of_chain.
  - destruct d as [name ins o]. simpl. intros ->. reflexivity.
  - destruct d as [name ins o]. simpl. intros H1 H2 H3.
    rewrite (proj2 (String.eqb_neq name "scan")) by assumption.
    rewrite (proj2 (String.eqb_neq name "filter")) by assumption.
    rewrite (proj2 (String.eqb_neq name "sink")) by assumption.
    eexists; reflexivity.
  - destruct d as [name ins o]. simpl. intros -> ->. reflexivity.
Qed.

End LaterSerialization.

Lemma later_serialization_supports_witness :
  exists rel,
    InfoSerde.ToProto Catalog.serializers
      (Catalog.filter_over (Catalog.scan "parquet" None)
                           (field_ref (FieldName "B"))) = Ok rel /\
    InfoSerde.has_filter rel = true.
Proof.
  eassert (Hser : InfoSerde.ToProto Catalog.serializers
                    (Catalog.filter_over (Catalog.scan "parquet" None)
                                         (field_ref (FieldName "B"))) = Ok _)
    by reflexivity.
  eexists. split; [exact Hser |].
  apply later_serialization_supports in Hser as (_ & _ & Hfilter).
  apply Hfilter. reflexivity.
Defined.

Lemma later_scan_serialized_witness :
  InfoSerde.ToProto Catalog.serializers
    (Catalog.scan "arrow" (Some (Sample.key 1)))
  = Ok (Catalog.read_back kArrow FILE_FORMAT_UNSPECIFIED).
Proof.
  apply (proj2 (later_scan_serialized Catalog.serializers
                  (Catalog.dataset "arrow")
                  (@mkScanOptions Catalog.env (Some (Sample.key 1)) true)
                  (Catalog.read_back kArrow FILE_FORMAT_UNSPECIFIED)
                  eq_refl)).
  exists ["/tmp/dat1.parquet"], ["A"; "B"; "C"], kArrow.
  split; [reflexivity |]. split; [reflexivity |]. split; [reflexivity |].
  intros _. right. left. split; reflexivity.
Defined.

(** A filter on column B by name, which is bound to position 1; a filter
    on position 1, bound already: refused by the serializers that refuse a
    default-constructed expression, and written with nothing set, whatever
    the filter is, by those that accept it; and a sink. *)
Lemma later_filter_serialized_witness :
  (exists input_rel,
     InfoSerde.ToProto Catalog.serializers
       (Catalog.filter_over (Catalog.scan "parquet" None)
                            (field_ref (FieldName "B")))
     = Ok (@RelFilter Catalog.env None (Some input_rel)
                      (Some (Catalog.Translated (field_ref (FieldPath [1]))))
                      false)) /\
  raises Invalid
    (InfoSerde.ToProto Catalog.serializers
       (Catalog.filter_over (Catalog.scan "parquet" None) (Sample.key 1))) /\
  (exists input_rel,
     InfoSerde.ToProto Catalog.lenient_serializers
       (Catalog.scan "parquet" None) = Ok input_rel /\
     InfoSerde.ToProto Catalog.lenient_serializers
       (Catalog.filter_over (Catalog.scan "parquet" None) (Sample.key 1))
     = Ok (@RelFilter Catalog.env None (Some input_rel)
                      (Some Catalog.nothing_set) false) /\
     InfoSerde.ToProto Catalog.lenient_serializers
       (Catalog.filter_over (Catalog.scan "parquet" None) (literal 7))
     = Ok (@RelFilter Catalog.env None (Some input_rel)
                      (Some Catalog.nothing_set) false)) /\
  InfoSerde.ToProto Catalog.serializers
    (mkDeclaration "sink" [Catalog.scan "parquet" None]
                   (@ProjectNodeOptions Catalog.env []))
  = InfoSerde.ToProto Catalog.serializers (Catalog.scan "parquet" None).
Proof.
  assert (Hreg : GetConverter Catalog.serializers "filter" = Ok FilterConverter)
    by reflexivity.
  assert (Hreg' : GetConverter Catalog.lenient_serializers "filter"
                  = Ok FilterConverter) by reflexivity.
  destruct (later_filter_serialized Catalog.serializers Hreg)
    as (Hfilter & Hbound & Hsink).
  destruct (later_filter_serialized Catalog.lenient_serializers Hreg')
    as (Hfilter' & Hbound' & _).
  eassert (Hscan : InfoSerde.ToProto Catalog.serializers
                     (Catalog.scan "parquet" None) = Ok _) by reflexivity.
  eassert (Hscan' : InfoSerde.ToProto Catalog.lenient_serializers
                      (Catalog.scan "parquet" None) = Ok _) by reflexivity.
  split; [| split; [| split]].
  - eassert (Hser : InfoSerde.ToProto Catalog.serializers
                      (Catalog.filter_over (Catalog.scan "parquet" None)
                                           (field_ref (FieldName "B"))) = Ok _)
      by reflexivity.
    destruct (Hfilter _ _ _ Hser)
      as (input_rel & condition & _ & Hrel & _ & Hunbound).
    destruct (Hunbound eq_refl) as (fields & bound & Hfields & Hb & Hcond).
    injection Hfields as <-. injection Hb as <-. injection Hcond as <-.
    exists input_rel. rewrite Hser. f_equal. exact Hrel.
  - unfold Catalog.filter_over.
    rewrite (Hbound (Catalog.scan "parquet" None) (Sample.key 1) _
               (Some ["A"; "B"; "C"]) eq_refl Hscan eq_refl).
    eexists; reflexivity.
  - eexists. split; [exact Hscan' |]. unfold Catalog.filter_over. split.
    + eassert (Hser : InfoSerde.ToProto Catalog.lenient_serializers
                        (mkDeclaration "filter" [Catalog.scan "parquet" None]
                           (@FilterNodeOptions Catalog.env (Sample.key 1)))
                      = Ok _).
      { rewrite (Hbound' (Catalog.scan "parquet" None) (Sample.key 1) _
                   (Some ["A"; "B"; "C"]) eq_refl Hscan' eq_refl).
        reflexivity. }
      destruct (Hfilter' _ _ _ Hser)
        as (input_rel & condition & Hin & Hrel & Hdefault & _).
      rewrite Hscan' in Hin. injection Hin as <-.
      specialize (Hdefault eq_refl). injection Hdefault as <-.
      rewrite Hser, Hrel. reflexivity.
    + rewrite (Hbound' (Catalog.scan "parquet" None) (literal 7) _
                 (Some ["A"; "B"; "C"]) eq_refl Hscan' eq_refl).
      reflexivity.
  - apply Hsink.
Defined.

Lemma later_scan_read_back_witness :
  exists d' ds',
    InfoSerde.ToProto Catalog.serializers
      (Catalog.scan "arrow" (Some (Sample.key 1)))
    = Ok (Catalog.read_back kArrow FILE_FORMAT_UNSPECIFIED) /\
    Info.FromProto Catalog.debug
      (Catalog.read_back kArrow FILE_FORMAT_UNSPECIFIED) = Ok d' /\
    declaration d' = mkDeclaration "scan" []
                       (ScanNodeOptions ds' (mkScanOptions None true)) /\
    Catalog.cat_type_name ds' = "ipc".
Proof.
  assert (Hreg : GetConverter Catalog.serializers "scan" = Ok ScanConverter)
    by reflexivity.
  assert (Hser : InfoSerde.ToProto Catalog.serializers
                   (Catalog.scan "arrow" (Some (Sample.key 1)))
                 = Ok (Catalog.read_back kArrow FILE_FORMAT_UNSPECIFIED))
    by reflexivity.
  eassert (Hback : Info.FromProto Catalog.debug
                     (Catalog.read_back kArrow FILE_FORMAT_UNSPECIFIED)
                   = Ok _) by reflexivity.
  destruct (later_scan_read_back Catalog.serializers Catalog.debug _ _
              Hreg Hser Hback)
    as (files & ds' & factory & files' & format & schema' &
        Hfiles & _ & Hd' & Hmake & Hfin & Hformat & _).
  injection Hfiles as <-.
  destruct (Hformat ltac:(discriminate)) as [[Hn _] | [_ ->]]; [discriminate |].
  injection Hmake as <-. injection Hfin as <-.
  eexists _, _. split; [exact Hser |]. split; [exact Hback |].
  split; [exact Hd' | reflexivity].
Defined.

Lemma schema_to_bind_witness :
  InfoSerde.ExtractSchemaToBind Catalog.serializers
    (Catalog.filter_over (Catalog.scan "parquet" None) (Sample.key 1))
  = Ok (Some ["A"; "B"; "C"]) /\
  raises Invalid
    (InfoSerde.ExtractSchemaToBind Catalog.serializers
       (Catalog.hashjoin (Catalog.scan "parquet" None)
                         (Catalog.scan "parquet" None)
                         (mkHashJoinNodeOptions INNER [] [] []))) /\
  InfoSerde.ExtractSchemaToBind Catalog.serializers
    (mkDeclaration "filter" [] (@FilterNodeOptions Catalog.env (Sample.key 1)))
  = Undefined.
Proof.
  split; [| split].
  - apply (proj1 (schema_to_bind Catalog.serializers _)).
    exists (Catalog.dataset "parquet"). split; [| reflexivity].
    apply over_filter, over_scan.
  - apply (proj2 (schema_to_bind Catalog.serializers _));
      simpl; discriminate.
  - apply (proj2 (schema_to_bind Catalog.serializers _)); reflexivity.
Defined.

(** ** Join keys *)

Section JoinKeys.

Context (E : Collaborators).
Variable DebugString : Rel E -> string.

Lemma join_options_of_bad_keys (jt : JoinType) (f : string)
      (a0 a1 : Expression (Datum E)) (rest : list (Expression (Datum E))) :
  f = "equal" \/ f = "is_not_distinct_from" ->
  Expression_field_ref a0 = None \/ Expression_field_ref a1 = None ->
  raises Invalid (join_options_of E jt (call f (a0 :: a1 :: rest))).
Proof.
  intros Hf Hkeys. unfold join_options_of, index. cbn [Expression_call].
  assert (Hcmp : exists cmp,
             (if (f =? "equal")%string then Ok EQ
              else if (f =? "is_not_distinct_from")%string then Ok IS
              else Status_Invalid
                     ("Only `equal` or `is_not_distinct_from` are supported for join key comparison but got "
                      ++ f)%string) = Ok cmp).
  { destruct Hf as [-> | ->]; eexists; reflexivity. }
  destruct Hcmp as [cmp ->]. simpl.
  destruct Hkeys as [-> | H1].
  - eexists; reflexivity.
  - rewrite H1. destruct (Expression_field_ref a0); eexists; reflexivity.
Qed.

(** X18.  In both revisions, once translation of a JoinRel has reached the
    expression (the common check, the join type and both inputs went
    through) and the expression is a call to "equal" or
    "is_not_distinct_from" on at least two arguments, the join is refused
    with Invalid as soon as one of the first two arguments translates to
    something else than a field reference; arguments after the second are
    not looked at. *)
Theorem join_keys_must_be_references c l r se t adv jt f a0 a1 rest :
  CheckRelCommon c adv = Ok tt ->
  join_type_switch t = Ok jt ->
  FromProto_Expression E se = Ok (call f (a0 :: a1 :: rest)) ->
  f = "equal" \/ f = "is_not_distinct_from" ->
  Expression_field_ref a0 = None \/ Expression_field_ref a1 = None ->
  (forall L R,
     Decl.FromProto DebugString l = Ok L ->
     Decl.FromProto DebugString r = Ok R ->
     raises Invalid
       (Decl.FromProto DebugString
          (RelJoin c (Some l) (Some r) (Some se) t adv))) /\
  (forall L R,
     Info.FromProto DebugString l = Ok L ->
     Info.FromProto DebugString r = Ok R ->
     raises Invalid
       (Info.FromProto DebugString
          (RelJoin c (Some l) (Some r) (Some se) t adv))).
Proof.
  intros Hc Ht He Hf Hkeys. split; intros L R Hl Hr.
  - erewrite Decl_join_reaches_expression by eassumption.
    destruct (@join_options_of_bad_keys jt f a0 a1 rest Hf Hkeys) as [msg ->].
    eexists; reflexivity.
  - erewrite Info_join_reaches_expression by eassumption.
    destruct (@join_options_of_bad_keys jt f a0 a1 rest Hf Hkeys) as [msg ->].
    eexists; reflexivity.
Qed.

End JoinKeys.

(** The JoinPlanInvalidKeys plan: the right key is a literal. *)
Lemma join_keys_must_be_references_witness :
  raises Invalid
    (Info.FromProto Sample.debug
       (Sample.join_of JOIN_TYPE_INNER (call "equal" [Sample.key 0; literal 5]))).
Proof.
  refine (proj2 (join_keys_must_be_references Sample.debug None Sample.scan_abc
                   Sample.scan_xya
                   (call "equal" [Sample.key 0; literal 5]) JOIN_TYPE_INNER false
                   (jt := INNER) (f := "equal") (a0 := Sample.key 0)
                   (a1 := literal 5) (rest := [])
                   eq_refl eq_refl eq_refl (or_introl eq_refl)
                   (or_intror eq_refl))
                _ _ Sample_scan_abc Sample_scan_xya).
Defined.
